(** * Covasim options store ([covasim/settings.py])

    A shallow embedding of the [Options] class of [covasim/settings.py] and
    the properties of its [set] operation.

    The class is a global, mutable key/value store.  It owns two
    dictionaries, [options] (the live values) and [orig_options] (the
    defaults captured by a deep copy at construction), and it talks to two
    collaborators: Matplotlib ([pl.rcParams], [pl.switch_backend],
    [pl.style.use]) and the module reloader of [reload_numba].

    Modelling choices:
    - Python values are the inductive [PyVal]; strings are byte strings, so
      [str.lower] is ASCII lower-casing.
    - A Python [dict] keeps insertion order and the loop of [set] depends on
      it, so a dictionary is an association list ([dict]) with the update
      discipline of Python (overwrite in place, else append).
    - Mutation is explicit state passing in a state-and-exception monad [M];
      a raised exception keeps the mutations made before it.
    - The calls into Matplotlib and the reloader are recorded, newest first,
      in the [log] of the state.  What Matplotlib accepts (the style
      registry, the usable backends) and what the process environment holds
      are the fields of a [World].
      An assignment to [pl.rcParams] is recorded as made; the checks
      Matplotlib runs on the assigned value are outside the model.
    - In [set], the local variable [kwargs] is either a dictionary of its
      own or, after [kwargs = self.orig_options], the very object
      [self.orig_options]; [kwargs_ref] keeps the two apart. *)

From Stdlib Require Import List String Ascii ZArith Bool Lia.
Import ListNotations.
Open Scope string_scope.
Open Scope list_scope.
Set Warnings "-register-all".

(** ** Python values *)

(** A Python [float]: a finite binary64 value [m * 2^e], an infinity or a
    NaN. *)
Inductive PyFloat : Type :=
| FFinite (m e : Z)
| FInf (negative : bool)
| FNan.

Inductive PyVal : Type :=
| VNone
| VBool (b : bool)
| VInt (z : Z)
| VFloat (f : PyFloat)
| VStr (s : string)
| VList (l : list PyVal)
| VDict (d : list (string * PyVal)).

(** An insertion-ordered dictionary with string keys. *)
Definition dict : Type := list (string * PyVal).

(** [bool(v)]: the truth value Python gives [v] in [if v:]. *)
Definition truthy (v : PyVal) : bool :=
  match v with
  | VNone => false
  | VBool b => b
  | VInt z => negb (z =? 0)%Z
  | VFloat (FFinite m _) => negb (m =? 0)%Z
  | VFloat _ => true
  | VStr s => negb (s =? "")
  | VList l => match l with [] => false | _ => true end
  | VDict d => match d with [] => false | _ => true end
  end.

(** [v in [None, 'default']]: no value of another type compares equal to
    [None] or to a string. *)
Definition in_None_default (v : PyVal) : bool :=
  match v with
  | VNone => true
  | VStr s => s =? "default"
  | _ => false
  end.

(** ** Strings *)

Definition lower_ascii (c : ascii) : ascii :=
  let n := nat_of_ascii c in
  if (65 <=? n)%nat && (n <=? 90)%nat then ascii_of_nat (n + 32) else c.

(** [s.lower()] *)
Fixpoint lower (s : string) : string :=
  match s with
  | EmptyString => EmptyString
  | String c s' => String (lower_ascii c) (lower s')
  end.

(** [sub in s] for strings. *)
Fixpoint str_in (sub s : string) : bool :=
  String.prefix sub s ||
  match s with
  | EmptyString => false
  | String _ s' => str_in sub s'
  end.

(** [x in l] for a list of strings. *)
Definition mem (x : string) (l : list string) : bool :=
  existsb (String.eqb x) l.

(** ** Dictionaries *)

(** [d.get(k)], with [None] of Rocq for a missing key. *)
Fixpoint dict_get (k : string) (d : dict) : option PyVal :=
  match d with
  | [] => None
  | (k', v) :: d' => if k =? k' then Some v else dict_get k d'
  end.

(** [k in d] *)
Definition dict_has (k : string) (d : dict) : bool :=
  match dict_get k d with Some _ => true | None => false end.

(** [d[k] = v]: an existing key keeps its place, a new key goes last. *)
Fixpoint dict_set (k : string) (v : PyVal) (d : dict) : dict :=
  match d with
  | [] => [(k, v)]
  | (k', v') :: d' =>
      if k =? k' then (k', v) :: d' else (k', v') :: dict_set k v d'
  end.

(** [d.keys()] *)
Definition keys (d : dict) : list string := map fst d.

(** [d.update(e)] *)
Definition dict_update (d e : dict) : dict :=
  fold_left (fun acc kv => dict_set (fst kv) (snd kv) acc) e d.

(** [sc.mergedicts(a, b)]: a new dictionary, [a] then [b], later entries
    winning. *)
Definition mergedicts (a b : dict) : dict :=
  dict_update (dict_update [] a) b.

(** ** Module-level constants *)

Definition matplotlib_keys : list string :=
  ["backend"; "style"; "dpi"; "font_size"; "font_family"].
Definition numba_keys : list string :=
  ["precision"; "numba_parallel"; "numba_cache"].

Definition default_fonts : list PyVal :=
  [VStr "Arial"; VStr "Liberation Sans"; VStr "DejaVu Sans"; VStr "sans-serif"].

Definition rc_simple : dict :=
  [ ("figure.facecolor", VStr "white");
    ("axes.spines.right", VBool false);
    ("axes.spines.top", VBool false);
    ("font.family", VStr "sans-serif");
    ("font.sans-serif", VList (VStr "Muli" :: default_fonts));
    ("legend.frameon", VBool false) ].

Definition rc_covasim : dict :=
  mergedicts rc_simple
    [ ("axes.facecolor", VStr "efefff");
      ("axes.grid", VBool true);
      ("grid.color", VStr "white");
      ("grid.linestyle", VStr "-");
      ("grid.linewidth", VInt 1);
      ("font.sans-serif", VList (VStr "Rosario" :: VStr "Muli" :: default_fonts)) ].

(** ** The world outside the module *)

(** What the process environment and the libraries answer.  [int_of_str]
    and [float_of_str] are the parsers behind the builtins [int] and
    [float] on a string ([None] when Python raises [ValueError]). *)
Record World : Type := {
  getenv : string -> option string;          (* os.getenv / os.environ.get *)
  int_of_str : string -> option Z;
  float_of_str : string -> option PyFloat;
  pl_get_backend : string;                   (* pl.get_backend() *)
  rc_figure_dpi : PyVal;                     (* pl.rcParams['figure.dpi'] at import *)
  rc_font_size : PyVal;                      (* pl.rcParams['font.size'] at import *)
  style_available : list string;             (* pl.style.available *)
  backend_usable : PyVal -> bool;            (* pl.switch_backend succeeds *)
  inline_usable : bool                       (* matplotlib_inline imports and runs *)
}.

(** Calls that leave the module. *)
Inductive event : Type :=
| RcSet (param : string) (v : PyVal)         (* pl.rcParams[param] = v *)
| SwitchBackend (v : PyVal)                  (* pl.switch_backend(v) *)
| StyleUse (name : string)                   (* pl.style.use(name) *)
| InlineFormats (fmt : string)               (* set_matplotlib_formats(fmt) *)
| FontsAdd                                   (* sc.fonts(add=folder) *)
| ReloadNumba.                               (* the three importlib.reload calls *)

Inductive exn : Type :=
| KeyNotFoundError (key : string) (keylist : list string)
| ValueError (what : string) (names : list string)
| AttributeError (attr : string)
| TypeError
| OverflowError
| ImportError (module : string)
| BackendError (v : PyVal).

(** ** The object and the monad *)

Record Options : Type := {
  options : dict;            (* self.options: the live values *)
  orig_options : dict;       (* self.orig_options: the captured defaults *)
  optdesc : list (string * string);
  log : list event           (* calls made so far, newest first *)
}.

Inductive result (A : Type) : Type :=
| Ok (a : A)
| Raise (e : exn).
Arguments Ok {A} a.
Arguments Raise {A} e.

Definition M (A : Type) : Type := Options -> result A * Options.

Definition ret {A} (a : A) : M A := fun st => (Ok a, st).
Definition raise {A} (e : exn) : M A := fun st => (Raise e, st).
Definition bind {A B} (m : M A) (f : A -> M B) : M B :=
  fun st => match m st with
            | (Ok a, st') => f a st'
            | (Raise e, st') => (Raise e, st')
            end.

Notation "x <- m ;; k" := (bind m (fun x => k))
  (at level 61, m at next level, right associativity).
Notation "m ;;; k" := (bind m (fun _ => k))
  (at level 61, right associativity).

Definition emit (ev : event) : M unit :=
  fun st => (Ok tt, {| options := options st; orig_options := orig_options st;
                       optdesc := optdesc st; log := ev :: log st |}).

(** [self.options[k] = v], which is also what [options[k] = v] does through
    [__setitem__]. *)
Definition setitem (k : string) (v : PyVal) : M unit :=
  fun st => (Ok tt, {| options := dict_set k v (options st);
                       orig_options := orig_options st;
                       optdesc := optdesc st; log := log st |}).

(** [self.orig_options[k] = v] *)
Definition orig_setitem (k : string) (v : PyVal) : M unit :=
  fun st => (Ok tt, {| options := options st;
                       orig_options := dict_set k v (orig_options st);
                       optdesc := optdesc st; log := log st |}).

(** [self.orig_options[k]]: an [objdict] raises on a missing key. *)
Definition orig_getitem (k : string) : M PyVal :=
  fun st => match dict_get k (orig_options st) with
            | Some v => (Ok v, st)
            | None => (Raise (KeyNotFoundError k (keys (orig_options st))), st)
            end.

(** [key in options], through [__contains__]. *)
Definition contains (k : string) : M bool :=
  fun st => (Ok (dict_has k (options st)), st).

(** [try: m / except: pass] *)
Definition try_pass (m : M unit) : M unit :=
  fun st => match m st with
            | (Ok _, st') => (Ok tt, st')
            | (Raise _, st') => (Ok tt, st')
            end.

(** ** Builtins used by the constructor *)

(** [os.getenv(name, default)] *)
Definition getenv_or (w : World) (name : string) (default : PyVal) : PyVal :=
  match getenv w name with
  | Some s => VStr s
  | None => default
  end.

(** [float(v)]; an [int] converts exactly while it fits the mantissa. *)
Definition py_float (w : World) (v : PyVal) : M PyVal :=
  match v with
  | VStr s => match float_of_str w s with
              | Some f => ret (VFloat f)
              | None => raise (ValueError s [])
              end
  | VFloat f => ret (VFloat f)
  | VInt z => ret (VFloat (FFinite z 0))
  | VBool b => ret (VFloat (FFinite (if b then 1 else 0) 0))
  | _ => raise TypeError
  end.

(** [int(v)]: a string is parsed, a float is truncated towards zero. *)
Definition py_int (w : World) (v : PyVal) : M Z :=
  match v with
  | VStr s => match int_of_str w s with
              | Some z => ret z
              | None => raise (ValueError s [])
              end
  | VInt z => ret z
  | VBool b => ret (if b then 1 else 0)%Z
  | VFloat (FFinite m e) =>
      ret (if (0 <=? e)%Z then m * 2 ^ e else Z.quot m (2 ^ (- e)))%Z
  | VFloat (FInf _) => raise OverflowError
  | VFloat FNan => raise (ValueError "nan" [])
  | _ => raise TypeError
  end.

(** The literal [0.1] as a binary64 value. *)
Definition float_0_1 : PyFloat := FFinite 3602879701896397 (-55).

(** ** The class [Options] *)

(** The object right after [super().__init__()]. *)
Definition blank : Options :=
  {| options := []; orig_options := []; optdesc := []; log := [] |}.

(** The help texts are the source's, with its inner double quotes written
    as single quotes. *)
Definition _set_default_options (w : World) : M unit :=
  verbose <- py_float w (getenv_or w "COVASIM_VERBOSE" (VFloat float_0_1)) ;;
  let sep := getenv_or w "COVASIM_SEP" (VStr ",") in
  show <- py_int w (getenv_or w "COVASIM_SHOW" (VBool true)) ;;
  close <- py_int w (getenv_or w "COVASIM_CLOSE" (VBool false)) ;;
  let backend := getenv_or w "COVASIM_BACKEND" (VStr (pl_get_backend w)) in
  let interactive := getenv_or w "COVASIM_INTERACTIVE" (VBool true) in
  let style := getenv_or w "COVASIM_STYLE" (VStr "covasim") in
  let rc := VDict rc_covasim in
  let rc_simple := VDict rc_simple in
  dpi <- py_int w (getenv_or w "COVASIM_DPI" (rc_figure_dpi w)) ;;
  font_size <- py_int w (getenv_or w "COVASIM_FONT_SIZE" (rc_font_size w)) ;;
  let font_family := getenv_or w "COVASIM_FONT_FAMILY" (VStr "Rosario") in
  precision <- py_int w (getenv_or w "COVASIM_PRECISION" (VInt 32)) ;;
  let numba_parallel := getenv_or w "COVASIM_NUMBA_PARALLEL" (VStr "none") in
  numba_cache <- py_int w (getenv_or w "COVASIM_NUMBA_CACHE" (VInt 1)) ;;
  fun st =>
    (Ok tt,
     {| options :=
          [ ("verbose", verbose); ("sep", sep); ("show", VInt show);
            ("close", VInt close); ("backend", backend);
            ("interactive", interactive); ("style", style); ("rc", rc);
            ("rc_simple", rc_simple); ("dpi", VInt dpi);
            ("font_size", VInt font_size); ("font_family", font_family);
            ("precision", VInt precision);
            ("numba_parallel", numba_parallel);
            ("numba_cache", VBool (negb (numba_cache =? 0)%Z)) ];
        orig_options := orig_options st;
        optdesc :=
          [ ("verbose", "Set default level of verbosity (i.e. logging detail)");
            ("sep", "Set thousands seperator for text output");
            ("show", "Set whether or not to show figures (i.e. call pl.show() automatically)");
            ("close", "Set whether or not to close figures (i.e. call pl.close() automatically)");
            ("backend", "Set the Matplotlib backend (use 'agg' for non-interactive)");
            ("interactive", "Convenience method to set figure backend, showing, and closing behavior");
            ("style", "Set the default plotting style -- options are 'covasim' and 'simple' plus those in pl.style.available; see also options.rc");
            ("rc", "Default Matplotlib rc (run control) parameters for Covasim; used with style='covasim'");
            ("rc_simple", "Simple Matplotlib rc (run control) parameters for Covasim; used with style='simple'");
            ("dpi", "Set the default DPI -- the larger this is, the larger the figures will be");
            ("font_size", "Set the default font size");
            ("font_family", "Set the default font family (e.g., Arial)");
            ("precision", "Set arithmetic precision for Numba -- 32-bit by default for efficiency");
            ("numba_parallel", "Set Numba multithreading -- none, safe, full; full multithreading is ~20% faster, but results become nondeterministic");
            ("numba_cache", "Set Numba caching -- saves on compilation time; disabling is not recommended") ];
        log := log st |}).

Definition load_custom_fonts : M unit := emit FontsAdd.

(** [self.orig_options = sc.dcp(self.options)]: values are immutable here,
    so the deep copy is the value itself and shares nothing with the live
    mapping. *)
Definition capture_orig_options : M unit :=
  fun st => (Ok tt, {| options := options st; orig_options := options st;
                       optdesc := optdesc st; log := log st |}).

Definition __init__ (w : World) : M unit :=
  _set_default_options w ;;;
  capture_orig_options ;;;
  load_custom_fonts.

(** [options = Options()] at the end of the module. *)
Definition new_Options (w : World) : result unit * Options := __init__ w blank.

(** [get(key)] is [dict.get] of the live mapping: a missing key gives
    [None]. *)
Definition get (st : Options) (key : string) : PyVal :=
  match dict_get key (options st) with
  | Some v => v
  | None => VNone
  end.

Definition get_default (key : string) : M PyVal := orig_getitem key.

Definition reload_numba : M unit := emit ReloadNumba.

(** [value in available_fonts] for a list of font names. *)
Definition in_fonts (value : PyVal) (fonts : list string) : bool :=
  match value with
  | VStr s => mem s fonts
  | _ => false
  end.

Definition set_matplotlib_global (w : World) (key : string) (value : PyVal)
    (available_fonts : option (list string)) : M unit :=
  if truthy value then
    if key =? "font_size" then emit (RcSet "font.size" value)
    else if key =? "dpi" then emit (RcSet "figure.dpi" value)
    else if key =? "backend" then
      if backend_usable w value then emit (SwitchBackend value)
      else raise (BackendError value)
    else if key =? "font_family" then
      if match available_fonts with
         | None => true
         | Some fonts => in_fonts value fonts
         end
      then emit (RcSet "font.family" value)
      else ret tt
    else if key =? "style" then
      match value with
      | VNone => emit (StyleUse "default")
      | VStr s =>
          if lower s =? "covasim" then emit (StyleUse "default")
          else if mem s (style_available w) then emit (StyleUse s)
          else raise (ValueError s (style_available w))
      | _ => raise (AttributeError "lower")
      end
    else raise (KeyNotFoundError key [])
  else ret tt.

(** The variable [kwargs] of [set]: a dictionary local to the call, or the
    object [self.orig_options] itself. *)
Inductive kwargs_ref : Type :=
| Fresh (d : dict)
| OrigOptions.

(** The dictionary [kwargs] denotes now. *)
Definition deref (kw : kwargs_ref) : M dict :=
  fun st => (Ok match kw with
                | Fresh d => d
                | OrigOptions => orig_options st
                end, st).

(** [kwargs[k] = v] *)
Definition kwargs_setitem (kw : kwargs_ref) (k : string) (v : PyVal)
    : M kwargs_ref :=
  match kw with
  | Fresh d => ret (Fresh (dict_set k v d))
  | OrigOptions => orig_setitem k v ;;; ret OrigOptions
  end.

Definition jupyter_kwargs : dict :=
  [("dpi", VInt 100); ("show", VBool false); ("close", VBool true)].

(** The [try] block of the Jupyter branch. *)
Definition jupyter_formats (w : World) : M unit :=
  try_pass
    (if match getenv w "SPHINX_BUILD" with
        | Some s => truthy (VStr s)
        | None => false
        end
     then ret tt
     else if inline_usable w then emit (InlineFormats "retina")
     else raise (ImportError "matplotlib_inline")).

(** First block of [set]: which overrides were asked for. *)
Definition resolve_overrides (w : World) (key : option string) (value : PyVal)
    (kwargs : dict) : M kwargs_ref :=
  match key with
  | Some k =>
      if mem k ["default"; "defaults"] then ret OrigOptions
      else if str_in "jupyter" (lower k) then
        let kwargs := mergedicts jupyter_kwargs kwargs in
        jupyter_formats w ;;;
        ret (Fresh kwargs)
      else ret (Fresh (mergedicts kwargs [(k, value)]))
  | None => ret (Fresh kwargs)
  end.

(** Second block of [set]: "Handle interactivity". *)
Definition handle_interactivity (kw : kwargs_ref) : M kwargs_ref :=
  d <- deref kw ;;
  match dict_get "interactive" d with
  | Some interactive =>
      interactive <- (if in_None_default interactive
                      then orig_getitem "interactive"
                      else ret interactive) ;;
      if truthy interactive then
        kw <- kwargs_setitem kw "show" (VBool true) ;;
        kw <- kwargs_setitem kw "close" (VBool false) ;;
        backend <- orig_getitem "backend" ;;
        kwargs_setitem kw "backend" backend
      else
        kw <- kwargs_setitem kw "show" (VBool false) ;;
        kwargs_setitem kw "backend" (VStr "agg")
  | None => ret kw
  end.

(** Body of the loop "Reset options" for one pair. *)
Definition reset_option (w : World) (key : string) (value : PyVal)
    (reload_required : bool) : M bool :=
  known <- contains key ;;
  if negb known then
    fun st => (Raise (KeyNotFoundError key (keys (orig_options st))), st)
  else
    value <- (if in_None_default value then orig_getitem key else ret value) ;;
    setitem key value ;;;
    let reload_required := reload_required || mem key numba_keys in
    (if mem key matplotlib_keys
     then set_matplotlib_global w key value None
     else ret tt) ;;;
    ret reload_required.

(** The loop over [kwargs.items()]. *)
Fixpoint reset_options (w : World) (items : dict) (reload_required : bool)
    : M bool :=
  match items with
  | [] => ret reload_required
  | (key, value) :: rest =>
      reload_required <- reset_option w key value reload_required ;;
      reset_options w rest reload_required
  end.

Definition set (w : World) (key : option string) (value : PyVal)
    (kwargs : dict) : M unit :=
  kw <- resolve_overrides w key value kwargs ;;
  kw <- handle_interactivity kw ;;
  items <- deref kw ;;
  reload_required <- reset_options w items false ;;
  if reload_required then reload_numba else ret tt.

(** [__call__] *)
Definition call := set.

(** ** The other methods of the class *)

(** [__getitem__]: [self.options[key]]; an [objdict] raises on a missing
    key. *)
Definition __getitem__ (key : string) : M PyVal :=
  fun st => match dict_get key (options st) with
            | Some v => (Ok v, st)
            | None => (Raise (KeyNotFoundError key (keys (options st))), st)
            end.

(** [__setitem__], [__contains__], [__len__], [setdefault] and [update] are
    the dictionary methods of [self.options]. *)
Definition __setitem__ (key : string) (value : PyVal) : M unit :=
  setitem key value.

Definition __contains__ (key : string) : M bool := contains key.

Definition __len__ : M nat := fun st => (Ok (List.length (options st)), st).

Definition setdefault (key : string) (default : PyVal) : M PyVal :=
  fun st => match dict_get key (options st) with
            | Some v => (Ok v, st)
            | None => (Ok default,
                       {| options := dict_set key default (options st);
                          orig_options := orig_options st;
                          optdesc := optdesc st; log := log st |})
            end.

Definition update (other : dict) : M unit :=
  fun st => (Ok tt, {| options := dict_update (options st) other;
                       orig_options := orig_options st;
                       optdesc := optdesc st; log := log st |}).

(** [self.optdesc[key]] *)
Definition optdesc_getitem (key : string) : M string :=
  fun st =>
    match find (fun kd => key =? fst kd) (optdesc st) with
    | Some kd => (Ok (snd kd), st)
    | None => (Raise (KeyNotFoundError key (map fst (optdesc st))), st)
    end.

Definition upper_ascii (c : ascii) : ascii :=
  let n := nat_of_ascii c in
  if (97 <=? n)%nat && (n <=? 122)%nat then ascii_of_nat (n - 32) else c.

(** [s.upper()] *)
Fixpoint upper (s : string) : string :=
  match s with
  | EmptyString => EmptyString
  | String c s' => String (upper_ascii c) (upper s')
  end.

(** One [entry] of [get_help]. *)
Record help_entry : Type := {
  entry_key : string;
  entry_current : PyVal;
  entry_default : PyVal;
  entry_variable : string;
  entry_desc : string
}.

(** [entry.variable] in [get_help]. *)
Definition help_variable (key : string) : string :=
  if negb (String.prefix "rc" key)
  then String.append "COVASIM_" (upper key)
  else "No environment variable".

(** The first loop of [get_help], which builds [optdict]: one entry per key
    of [orig_options], in order (the keys of a dictionary are distinct, so
    each [optdict[key] = entry] adds an item).  The printing that follows
    only reads [optdict]. *)
Fixpoint get_help_entries (ks : list string) : M (list (string * help_entry)) :=
  match ks with
  | [] => ret []
  | key :: rest =>
      current <- __getitem__ key ;;
      default <- orig_getitem key ;;
      desc <- optdesc_getitem key ;;
      let entry := {| entry_key := key; entry_current := current;
                      entry_default := default;
                      entry_variable := help_variable key;
                      entry_desc := desc |} in
      optdict <- get_help_entries rest ;;
      ret ((key, entry) :: optdict)
  end.

Definition get_help_optdict : M (list (string * help_entry)) :=
  fun st => get_help_entries (keys (orig_options st)) st.

(** [handle_show(do_show)].  The result pairs the returned value with
    whether [pl.show()] was called.  [options] is the [Options] object, a
    [dict] subclass that keeps its values in [self.options] and defines no
    attribute lookup of its own, so [options.show] raises
    [AttributeError]. *)
Definition handle_show (w : World) (do_show : PyVal) : M (PyVal * bool) :=
  let backend := pl_get_backend w in
  do_show <- match do_show with
             | VNone => raise (AttributeError "show")
             | _ => ret do_show
             end ;;
  let do_show := if backend =? "agg" then VBool false else do_show in
  if truthy do_show then ret (do_show, true) else ret (do_show, false).

(** ** Concrete worlds for the examples *)

Definition digit_of (c : ascii) : option Z :=
  let n := nat_of_ascii c in
  if (48 <=? n)%nat && (n <=? 57)%nat then Some (Z.of_nat (n - 48)) else None.

Fixpoint parse_digits (s : string) (acc : Z) : option Z :=
  match s with
  | EmptyString => Some acc
  | String c s' =>
      match digit_of c with
      | Some d => parse_digits s' (10 * acc + d)%Z
      | None => None
      end
  end.

(** [int] on a plain run of decimal digits. *)
Definition parse_int (s : string) : option Z :=
  match s with
  | EmptyString => None
  | _ => parse_digits s 0%Z
  end.

Fixpoint env_lookup (env : list (string * string)) (name : string)
    : option string :=
  match env with
  | [] => None
  | (n, v) :: env' => if name =? n then Some v else env_lookup env' name
  end.

(** A host with the given environment variables, Matplotlib's stock
    [rcParams], three registered styles and two usable backends. *)
Definition example_world (env : list (string * string)) : World :=
  {| getenv := env_lookup env;
     int_of_str := parse_int;
     float_of_str := fun _ => None;
     pl_get_backend := "TkAgg";
     rc_figure_dpi := VFloat (FFinite 100 0);
     rc_font_size := VFloat (FFinite 10 0);
     style_available := ["classic"; "ggplot"; "seaborn"];
     backend_usable := fun v => match v with
                                | VStr s => mem s ["agg"; "TkAgg"]
                                | _ => false
                                end;
     inline_usable := false |}.

(** The singleton as the module creates it on such a host. *)
Definition example_options (env : list (string * string)) : Options :=
  snd (new_Options (example_world env)).

(** ** Vocabulary of the statements *)

(** The recognized option names, in the order [_set_default_options]
    creates them. *)
Definition option_names : list string :=
  [ "verbose"; "sep"; "show"; "close"; "backend"; "interactive"; "style";
    "rc"; "rc_simple"; "dpi"; "font_size"; "font_family"; "precision";
    "numba_parallel"; "numba_cache" ].

(** The live mapping and the defaults hold exactly the recognized names. *)
Definition wf (st : Options) : Prop :=
  keys (options st) = option_names /\ keys (orig_options st) = option_names.

(** The value the loop of [set] stores for the pair [(k, v)]. *)
Definition stored (orig : dict) (k : string) (v : PyVal) : option PyVal :=
  if in_None_default v then dict_get k orig else Some v.

(** [st'] has made more outside calls than [st], none of them a reload. *)
Definition quiet (st st' : Options) : Prop :=
  exists evs, log st' = evs ++ log st /\ ~ In ReloadNumba evs.

(** When [set_matplotlib_global(key, value)] returns normally. *)
Definition mpl_accepts (w : World) (key : string) (value : PyVal) : bool :=
  negb (truthy value) ||
  if key =? "backend" then backend_usable w value
  else if key =? "style" then
    match value with
    | VNone => true
    | VStr s => (lower s =? "covasim") || mem s (style_available w)
    | _ => false
    end
  else mem key ["font_size"; "dpi"; "font_family"].

(** The pair names a key of [numba_keys]. *)
Definition is_numba (kv : string * PyVal) : bool := mem (fst kv) numba_keys.

(** What the first block of [set] binds [kwargs] to. *)
Definition requested (key : option string) (value : PyVal) (kwargs : dict)
    : kwargs_ref :=
  match key with
  | Some k =>
      if mem k ["default"; "defaults"] then OrigOptions
      else if str_in "jupyter" (lower k)
           then Fresh (mergedicts jupyter_kwargs kwargs)
           else Fresh (mergedicts kwargs [(k, value)])
  | None => Fresh kwargs
  end.

(** The three (or two) entries "Handle interactivity" writes into [d] for
    the interactive value [i], with [ob] the default backend. *)
Definition expand (ob i : PyVal) (d : dict) : dict :=
  if truthy i
  then dict_set "backend" ob
         (dict_set "close" (VBool false) (dict_set "show" (VBool true) d))
  else dict_set "backend" (VStr "agg") (dict_set "show" (VBool false) d).

(** The state with other defaults. *)
Definition with_orig (st : Options) (orig : dict) : Options :=
  {| options := options st; orig_options := orig;
     optdesc := optdesc st; log := log st |}.

(** The part of [set] that comes before the loop, and the dictionary the
    loop then walks. *)
Definition resolved_items (w : World) (key : option string) (value : PyVal)
    (kwargs : dict) : M dict :=
  kw <- resolve_overrides w key value kwargs ;;
  kw <- handle_interactivity kw ;;
  deref kw.

(** The dictionary the loop walks, as a function of what was requested;
    [oi] and [ob] are the defaults of [interactive] and [backend]. *)
Definition resolved_dict (orig : dict) (kw : kwargs_ref) (oi ob : PyVal)
    : dict :=
  let d := match kw with Fresh d => d | OrigOptions => orig end in
  match dict_get "interactive" d with
  | None => d
  | Some i => expand ob (if in_None_default i then oi else i) d
  end.

(** The world with another process environment. *)
Definition with_getenv (w : World) (g : string -> option string) : World :=
  {| getenv := g; int_of_str := int_of_str w; float_of_str := float_of_str w;
     pl_get_backend := pl_get_backend w; rc_figure_dpi := rc_figure_dpi w;
     rc_font_size := rc_font_size w; style_available := style_available w;
     backend_usable := backend_usable w; inline_usable := inline_usable w |}.

(** A call [set(key, value, **kwargs)] as data, and a run of such calls on
    the same object, each result (returned or raised) being dropped. *)
Definition set_call : Type := option string * PyVal * dict.

Fixpoint set_calls (w : World) (calls : list set_call) (st : Options)
    : Options :=
  match calls with
  | [] => st
  | (key, value, kwargs) :: rest =>
      set_calls w rest (snd (set w key value kwargs st))
  end.

(** The call resets everything: its key is ['default'] or ['defaults']. *)
Definition is_reset (c : set_call) : bool :=
  match fst (fst c) with
  | Some k => mem k ["default"; "defaults"]
  | None => false
  end.

(** The three mappings of the object hold exactly the recognized names. *)
Definition wf3 (st : Options) : Prop :=
  wf st /\ map fst (optdesc st) = option_names.

(** * Properties *)

Arguments mem : simpl never.

(** ** Strings and dictionaries *)

Lemma mem_In (x : string) (l : list string) : mem x l = true <-> In x l.
Proof.
  unfold mem. rewrite existsb_exists. split.
  - intros [y [Hy E]]. apply String.eqb_eq in E. now subst.
  - intros H. exists x. split; [assumption | apply String.eqb_refl].
Qed.

Lemma mem_not_In (x : string) (l : list string) : mem x l = false <-> ~ In x l.
Proof.
  rewrite <- mem_In. destruct (mem x l); split; congruence.
Qed.

Lemma dict_get_In (k : string) (d : dict) (v : PyVal) :
  dict_get k d = Some v -> In (k, v) d.
Proof.
  induction d as [|[k' v'] d IH]; simpl; [discriminate|].
  destruct (String.eqb_spec k k') as [->|_].
  - intros [= ->]. now left.
  - intros H. right. auto.
Qed.

Lemma dict_get_None (k : string) (d : dict) :
  dict_get k d = None <-> ~ In k (keys d).
Proof.
  induction d as [|[k' v'] d IH]; simpl.
  - tauto.
  - destruct (String.eqb_spec k k') as [->|N].
    + split; [discriminate | intros H; exfalso; apply H; now left].
    + rewrite IH. split; [intros H [E|I]; [congruence | contradiction] | tauto].
Qed.

Lemma dict_has_In (k : string) (d : dict) :
  dict_has k d = true <-> In k (keys d).
Proof.
  unfold dict_has. destruct (dict_get k d) eqn:E.
  - split; [intros _|reflexivity].
    apply dict_get_In in E. now apply (in_map fst) in E.
  - apply dict_get_None in E. split; [discriminate | contradiction].
Qed.

Lemma dict_has_keys (k : string) (d e : dict) :
  keys d = keys e -> dict_has k d = dict_has k e.
Proof.
  intros H. destruct (dict_has k e) eqn:E.
  - apply dict_has_In. rewrite H. now apply dict_has_In.
  - destruct (dict_has k d) eqn:E'; [|reflexivity].
    apply dict_has_In in E'. rewrite H in E'. apply dict_has_In in E'. congruence.
Qed.

Lemma In_dict_get (k : string) (v : PyVal) (d : dict) :
  NoDup (keys d) -> In (k, v) d -> dict_get k d = Some v.
Proof.
  induction d as [|[k' v'] d IH]; simpl; [contradiction|].
  intros ND [E|I].
  - injection E as -> ->. now rewrite String.eqb_refl.
  - inversion ND as [|? ? NI ND']; subst.
    destruct (String.eqb_spec k k') as [->|_].
    + exfalso. apply NI. now apply (in_map fst) in I.
    + auto.
Qed.

Lemma dict_get_set_same (k : string) (v : PyVal) (d : dict) :
  dict_get k (dict_set k v d) = Some v.
Proof.
  induction d as [|[k' v'] d IH]; simpl.
  - now rewrite String.eqb_refl.
  - destruct (String.eqb_spec k k') as [->|N]; simpl.
    + now rewrite String.eqb_refl.
    + destruct (String.eqb_spec k k'); [contradiction | assumption].
Qed.

Lemma dict_get_set_other (k k' : string) (v : PyVal) (d : dict) :
  k <> k' -> dict_get k (dict_set k' v d) = dict_get k d.
Proof.
  intros N. induction d as [|[k2 v2] d IH]; simpl.
  - destruct (String.eqb_spec k k'); [contradiction | reflexivity].
  - destruct (String.eqb_spec k' k2) as [->|N2]; simpl.
    + destruct (String.eqb_spec k k2); [contradiction | reflexivity].
    + destruct (String.eqb_spec k k2); [reflexivity | assumption].
Qed.

Lemma keys_dict_set (k : string) (v : PyVal) (d : dict) :
  keys (dict_set k v d) = if dict_has k d then keys d else keys d ++ [k].
Proof.
  unfold dict_has. induction d as [|[k' v'] d IH]; simpl; [reflexivity|].
  destruct (String.eqb_spec k k') as [->|N]; simpl; [reflexivity|].
  rewrite IH. now destruct (dict_get k d).
Qed.

Lemma keys_dict_set_In (k : string) (v : PyVal) (d : dict) :
  In k (keys d) -> keys (dict_set k v d) = keys d.
Proof.
  intros H. rewrite keys_dict_set. apply dict_has_In in H. now rewrite H.
Qed.

Lemma NoDup_dict_set (k : string) (v : PyVal) (d : dict) :
  NoDup (keys d) -> NoDup (keys (dict_set k v d)).
Proof.
  intros ND. rewrite keys_dict_set. destruct (dict_has k d) eqn:E; [assumption|].
  apply NoDup_app; [assumption | repeat constructor; intros [] | ].
  intros x Hx [<-|[]]. apply dict_has_In in Hx. congruence.
Qed.

Lemma NoDup_dict_update (d e : dict) :
  NoDup (keys d) -> NoDup (keys (dict_update d e)).
Proof.
  unfold dict_update. revert d.
  induction e as [|[k v] e IH]; simpl; intros d ND; [assumption|].
  apply IH. now apply NoDup_dict_set.
Qed.

Lemma NoDup_mergedicts (a b : dict) : NoDup (keys (mergedicts a b)).
Proof.
  unfold mergedicts. apply NoDup_dict_update, NoDup_dict_update. constructor.
Qed.

(** In [sc.mergedicts(a, b)] an entry of [b] wins. *)
Lemma dict_get_update (k : string) (e : dict) :
  forall d, NoDup (keys e) ->
  dict_get k (dict_update d e) =
  match dict_get k e with Some v => Some v | None => dict_get k d end.
Proof.
  unfold dict_update.
  induction e as [|[k' v'] e IH]; simpl; intros d ND; [reflexivity|].
  inversion ND as [|? ? NI ND']; subst.
  rewrite IH by assumption.
  destruct (String.eqb_spec k k') as [->|N].
  - apply dict_get_None in NI. rewrite NI. apply dict_get_set_same.
  - destruct (dict_get k e); [reflexivity | now apply dict_get_set_other].
Qed.

Lemma dict_get_mergedicts (k : string) (a b : dict) :
  NoDup (keys a) -> NoDup (keys b) ->
  dict_get k (mergedicts a b) =
  match dict_get k b with Some v => Some v | None => dict_get k a end.
Proof.
  intros Na Nb. unfold mergedicts.
  rewrite dict_get_update by assumption.
  rewrite dict_get_update by assumption. simpl.
  destruct (dict_get k b); [reflexivity|]. now destruct (dict_get k a).
Qed.

(** A string that holds ["jupyter"] is neither of the reset keys. *)
Lemma jupyter_not_default (k : string) :
  str_in "jupyter" (lower k) = true -> mem k ["default"; "defaults"] = false.
Proof.
  intros H. apply mem_not_In. intros [<-|[<-|[]]]; vm_compute in H; discriminate.
Qed.

(** ** The store and its invariant *)

Lemma option_names_NoDup : NoDup option_names.
Proof.
  unfold option_names.
  repeat (constructor;
          [simpl; intros H;
           repeat (destruct H as [H|H]; [discriminate H|]); exact H|]).
  constructor.
Qed.

Lemma quiet_refl (st : Options) : quiet st st.
Proof. exists []. split; [reflexivity | intros []]. Qed.

Lemma quiet_trans (a b c : Options) : quiet a b -> quiet b c -> quiet a c.
Proof.
  intros [e1 [H1 N1]] [e2 [H2 N2]]. exists (e2 ++ e1). split.
  - rewrite H2, H1. apply app_assoc.
  - intros H. apply in_app_or in H. tauto.
Qed.

Lemma quiet_log (st st' : Options) : log st' = log st -> quiet st st'.
Proof. intros H. exists []. split; [exact H | intros []]. Qed.

Ltac quiet_one :=
  first [ apply quiet_refl
        | eexists [_]; split;
          [reflexivity | intros [E|[]]; discriminate E] ].

(** ** Frame of the Matplotlib side effect *)

Lemma set_matplotlib_global_frame w key value fonts st r st' :
  set_matplotlib_global w key value fonts st = (r, st') ->
  options st' = options st /\ orig_options st' = orig_options st /\
  optdesc st' = optdesc st /\ quiet st st'.
Proof.
  unfold set_matplotlib_global, emit, raise, ret. intros H.
  repeat match type of H with
         | context [if ?c then _ else _] => destruct c
         | context [match ?x with _ => _ end] => destruct x
         end;
    injection H as <- <-; simpl; repeat split; quiet_one.
Qed.

Lemma set_matplotlib_global_accepts w key value st :
  fst (set_matplotlib_global w key value None st) = Ok tt <->
  mpl_accepts w key value = true.
Proof.
  unfold set_matplotlib_global, mpl_accepts, emit, raise, ret.
  destruct (truthy value) eqn:T; simpl; [|tauto].
  destruct (key =? "font_size") eqn:E1.
  { apply String.eqb_eq in E1. subst. simpl. tauto. }
  destruct (key =? "dpi") eqn:E2.
  { apply String.eqb_eq in E2. subst. simpl. tauto. }
  destruct (key =? "backend") eqn:E3.
  { destruct (backend_usable w value); simpl; split; congruence. }
  destruct (key =? "font_family") eqn:E4.
  { apply String.eqb_eq in E4. subst. simpl. tauto. }
  destruct (key =? "style") eqn:E5.
  { destruct value; simpl; try (split; congruence).
    destruct (lower s =? "covasim"); simpl; [tauto|].
    destruct (mem s (style_available w)); simpl; split; congruence. }
  unfold mem. simpl. rewrite E1, E2, E4. simpl. split; congruence.
Qed.

(** ** One turn of the loop *)

Lemma reset_option_unfold w k v rr st :
  reset_option w k v rr st =
  if negb (dict_has k (options st))
  then (Raise (KeyNotFoundError k (keys (orig_options st))), st)
  else match stored (orig_options st) k v with
       | None => (Raise (KeyNotFoundError k (keys (orig_options st))), st)
       | Some x =>
           let st1 := snd (setitem k x st) in
           if mem k matplotlib_keys
           then match set_matplotlib_global w k x None st1 with
                | (Ok _, st2) => (Ok (rr || mem k numba_keys), st2)
                | (Raise e, st2) => (Raise e, st2)
                end
           else (Ok (rr || mem k numba_keys), st1)
       end.
Proof.
  unfold reset_option, bind, contains, stored, orig_getitem, ret.
  destruct (dict_has k (options st)); simpl; [|reflexivity].
  destruct (in_None_default v); simpl.
  - destruct (dict_get k (orig_options st)); simpl; [|reflexivity].
    destruct (mem k matplotlib_keys); simpl; [|reflexivity].
    now destruct (set_matplotlib_global _ _ _ _ _) as [[[]|e] s2].
  - destruct (mem k matplotlib_keys); simpl; [|reflexivity].
    now destruct (set_matplotlib_global _ _ _ _ _) as [[[]|e] s2].
Qed.

Lemma reset_option_inv w k v rr st r st' :
  reset_option w k v rr st = (r, st') ->
  orig_options st' = orig_options st /\ optdesc st' = optdesc st /\
  quiet st st' /\ keys (options st') = keys (options st) /\
  (forall k', k' <> k -> dict_get k' (options st') = dict_get k' (options st)) /\
  (forall rr', r = Ok rr' ->
     rr' = rr || mem k numba_keys /\
     exists x, stored (orig_options st) k v = Some x /\
               dict_get k (options st') = Some x).
Proof.
  rewrite reset_option_unfold.
  destruct (dict_has k (options st)) eqn:Hk; simpl.
  2:{ intros [= <- <-]. repeat split; try apply quiet_refl; discriminate. }
  destruct (stored (orig_options st) k v) as [x|] eqn:Sx.
  2:{ intros [= <- <-]. repeat split; try apply quiet_refl; discriminate. }
  assert (K : keys (dict_set k x (options st)) = keys (options st))
    by (apply keys_dict_set_In; now apply dict_has_In).
  destruct (mem k matplotlib_keys).
  - destruct (set_matplotlib_global _ _ _ _ _) as [[[]|e] s2] eqn:G;
      apply set_matplotlib_global_frame in G; simpl in G;
      destruct G as (Go & Gd & Gp & Gq);
      intros [= <- <-]; rewrite Go, Gd, Gp;
      refine (conj eq_refl (conj eq_refl (conj _ (conj K (conj _ _))))).
    + exact (quiet_trans _ _ _ (quiet_log st _ eq_refl) Gq).
    + intros k' N. now apply dict_get_set_other.
    + intros rr' [= <-]. split; [reflexivity|].
      exists x. split; [reflexivity | apply dict_get_set_same].
    + exact (quiet_trans _ _ _ (quiet_log st _ eq_refl) Gq).
    + intros k' N. now apply dict_get_set_other.
    + discriminate.
  - intros [= <- <-]. simpl.
    refine (conj eq_refl (conj eq_refl (conj _ (conj K (conj _ _))))).
    + now apply quiet_log.
    + intros k' N. now apply dict_get_set_other.
    + intros rr' [= <-]. split; [reflexivity|].
      exists x. split; [reflexivity | apply dict_get_set_same].
Qed.

(** ** The loop *)

Lemma reset_options_inv w items :
  forall rr st r st',
  reset_options w items rr st = (r, st') ->
  orig_options st' = orig_options st /\ optdesc st' = optdesc st /\
  quiet st st' /\ keys (options st') = keys (options st) /\
  (forall k', ~ In k' (keys items) ->
     dict_get k' (options st') = dict_get k' (options st)) /\
  (forall rr', r = Ok rr' ->
     rr' = rr || existsb is_numba items /\
     (NoDup (keys items) ->
      forall k v, In (k, v) items ->
      exists x, stored (orig_options st) k v = Some x /\
                dict_get k (options st') = Some x)).
Proof.
  induction items as [|[k v] items IH]; simpl; intros rr st r st'.
  - unfold ret. intros [= <- <-].
    refine (conj eq_refl (conj eq_refl (conj (quiet_refl _)
             (conj eq_refl (conj (fun _ _ => eq_refl) _))))).
    intros rr' [= <-]. split; [now rewrite orb_false_r | intros _ ? ? []].
  - unfold bind at 1.
    destruct (reset_option w k v rr st) as [[rr1|e] st1] eqn:S1;
      apply reset_option_inv in S1;
      destruct S1 as (So & Sp & Sq & Sk & Sf & Sc).
    + intros H. apply IH in H. destruct H as (Ho & Hp & Hq & Hk & Hf & Hc).
      refine (conj _ (conj _ (conj (quiet_trans _ _ _ Sq Hq) (conj _ (conj _ _)))));
        try congruence.
      * intros k' N. simpl in N.
        rewrite Hf by tauto. apply Sf. intros <-. tauto.
      * intros rr' ->. destruct (Hc _ eq_refl) as [-> Hin].
        destruct (Sc _ eq_refl) as [-> [x [Sx Gx]]].
        split; [unfold is_numba at 2; simpl; now rewrite orb_assoc|].
        intros ND k0 v0 [E|I]; inversion ND as [|? ? NI ND']; subst.
        -- injection E as <- <-. exists x. split; [assumption|].
           now rewrite Hf.
        -- rewrite <- So. now apply Hin.
    + intros [= <- <-].
      refine (conj So (conj Sp (conj Sq (conj Sk (conj _ _))))).
      * intros k' N. apply Sf. intros <-. apply N. now left.
      * discriminate.
Qed.

Lemma reset_options_app w a b rr st :
  reset_options w (a ++ b) rr st =
  bind (reset_options w a rr) (fun rr' => reset_options w b rr') st.
Proof.
  revert rr st. unfold bind.
  induction a as [|[k v] a IH]; simpl; intros rr st.
  - reflexivity.
  - unfold bind.
    destruct (reset_option w k v rr st) as [[rr1|e] st1]; [|reflexivity].
    apply IH.
Qed.

(** A loop that raises did so at one pair, after the pairs before it went
    through. *)
Lemma reset_options_raise w items :
  forall rr st e st',
  reset_options w items rr st = (Raise e, st') ->
  exists pre k v post rr1 st1,
    items = pre ++ (k, v) :: post /\
    reset_options w pre rr st = (Ok rr1, st1) /\
    reset_option w k v rr1 st1 = (Raise e, st').
Proof.
  induction items as [|[k v] items IH]; simpl; intros rr st e st'.
  - discriminate.
  - unfold bind at 1.
    destruct (reset_option w k v rr st) as [[rr1|e1] st1] eqn:S1.
    + intros H. apply IH in H.
      destruct H as (pre & k0 & v0 & post & rr2 & st2 & -> & Hp & Hs).
      exists ((k, v) :: pre), k0, v0, post, rr2, st2.
      split; [reflexivity|]. split; [|assumption].
      simpl. unfold bind. now rewrite S1.
    + intros [= <- <-]. exists [], k, v, items, rr, st. auto.
Qed.

(** The loop goes through when every key is known, has a default to fall
    back on, and Matplotlib takes the value. *)
Lemma reset_options_total w items :
  forall rr st,
  (forall k v, In (k, v) items ->
     In k (keys (options st)) /\
     exists x, stored (orig_options st) k v = Some x /\
               (mem k matplotlib_keys = true -> mpl_accepts w k x = true)) ->
  exists st', reset_options w items rr st = (Ok (rr || existsb is_numba items), st').
Proof.
  induction items as [|[k v] items IH]; simpl; intros rr st H.
  - exists st. unfold ret. now rewrite orb_false_r.
  - destruct (H k v (or_introl eq_refl)) as [Hk [x [Sx Hm]]].
    unfold bind at 1.
    destruct (reset_option w k v rr st) as [[rr1|e] st1] eqn:S1.
    + pose proof (reset_option_inv _ _ _ _ _ _ _ S1) as (So & _ & _ & Sk & _ & Sc).
      destruct (Sc _ eq_refl) as [-> _].
      destruct (IH (rr || mem k numba_keys) st1) as [st' Hst'].
      { intros k0 v0 I. rewrite Sk, So. apply H. now right. }
      exists st'. rewrite Hst'. unfold is_numba at 2. simpl.
      now rewrite orb_assoc.
    + exfalso. rewrite reset_option_unfold in S1.
      apply dict_has_In in Hk. rewrite Hk, Sx in S1. simpl in S1.
      destruct (mem k matplotlib_keys) eqn:Mk; [|discriminate].
      specialize (Hm eq_refl).
      apply (set_matplotlib_global_accepts w k x (snd (setitem k x st))) in Hm.
      simpl in Hm.
      destruct (set_matplotlib_global _ _ _ _ _) as [[[]|e1] s2];
        simpl in Hm; congruence.
Qed.

(** ** The two blocks before the loop *)

Lemma set_split w key value kwargs st :
  set w key value kwargs st =
  (items <- resolved_items w key value kwargs ;;
   reload_required <- reset_options w items false ;;
   if reload_required then reload_numba else ret tt) st.
Proof.
  unfold set, resolved_items, bind.
  destruct (resolve_overrides w key value kwargs st) as [[kw|e] st1];
    [|reflexivity].
  destruct (handle_interactivity kw st1) as [[kw2|e] st2]; [|reflexivity].
  reflexivity.
Qed.

Lemma jupyter_formats_frame w st :
  exists st1, jupyter_formats w st = (Ok tt, st1) /\
    options st1 = options st /\ orig_options st1 = orig_options st /\
    optdesc st1 = optdesc st /\ quiet st st1.
Proof.
  unfold jupyter_formats, try_pass, emit, raise, ret.
  destruct (match getenv w "SPHINX_BUILD" with
            | Some s => truthy (VStr s) | None => false end);
    [|destruct (inline_usable w)];
    eexists; (split; [reflexivity|]); simpl; repeat split; quiet_one.
Qed.

Lemma resolve_overrides_spec w key value kwargs st :
  exists st1,
    resolve_overrides w key value kwargs st =
      (Ok (requested key value kwargs), st1) /\
    options st1 = options st /\ orig_options st1 = orig_options st /\
    optdesc st1 = optdesc st /\ quiet st st1.
Proof.
  unfold resolve_overrides, requested.
  destruct key as [k|].
  - destruct (mem k ["default"; "defaults"]).
    + exists st. repeat split. apply quiet_refl.
    + destruct (str_in "jupyter" (lower k)).
      * destruct (jupyter_formats_frame w st) as (st1 & E & H).
        exists st1. unfold bind. rewrite E. auto.
      * exists st. repeat split. apply quiet_refl.
  - exists st. repeat split. apply quiet_refl.
Qed.

(** Outside the Jupyter branch the first block touches nothing. *)
Lemma resolve_overrides_plain w key value kwargs st :
  match key with
  | Some k => mem k ["default"; "defaults"] = true \/
              str_in "jupyter" (lower k) = false
  | None => True
  end ->
  resolve_overrides w key value kwargs st = (Ok (requested key value kwargs), st).
Proof.
  unfold resolve_overrides, requested. destruct key as [k|]; [|reflexivity].
  destruct (mem k ["default"; "defaults"]); [reflexivity|].
  intros [H|H]; [discriminate | now rewrite H].
Qed.

Lemma handle_interactivity_absent kw st d :
  fst (deref kw st) = Ok d -> dict_get "interactive" d = None ->
  handle_interactivity kw st = (Ok kw, st).
Proof.
  unfold handle_interactivity, bind, deref. simpl. intros [= ->] H.
  now rewrite H.
Qed.

Lemma handle_interactivity_Fresh d st i oi ob :
  dict_get "interactive" d = Some i ->
  dict_get "interactive" (orig_options st) = Some oi ->
  dict_get "backend" (orig_options st) = Some ob ->
  handle_interactivity (Fresh d) st =
  (Ok (Fresh (expand ob (if in_None_default i then oi else i) d)), st).
Proof.
  intros Hi Hoi Hob.
  unfold handle_interactivity, bind, deref, orig_getitem, expand. simpl.
  rewrite Hi. destruct (in_None_default i); simpl.
  - rewrite Hoi. destruct (truthy oi); simpl; [now rewrite Hob | reflexivity].
  - destruct (truthy i); simpl; [now rewrite Hob | reflexivity].
Qed.

Lemma handle_interactivity_Orig st oi ob :
  dict_get "interactive" (orig_options st) = Some oi ->
  dict_get "backend" (orig_options st) = Some ob ->
  handle_interactivity OrigOptions st =
  (Ok OrigOptions, with_orig st (expand ob oi (orig_options st))).
Proof.
  intros Hoi Hob.
  unfold handle_interactivity, bind, deref, orig_getitem, orig_setitem,
    expand, with_orig, ret. simpl.
  rewrite Hoi.
  destruct (in_None_default oi); simpl; [rewrite Hoi|];
    (destruct (truthy oi); simpl;
     [rewrite !dict_get_set_other by discriminate; now rewrite Hob
     |reflexivity]).
Qed.

(** "Handle interactivity" never touches the live values or the log, and
    it leaves the defaults alone when [kwargs] is a dictionary of its
    own. *)
Lemma handle_interactivity_frame kw st r st' :
  handle_interactivity kw st = (r, st') ->
  options st' = options st /\ optdesc st' = optdesc st /\ log st' = log st /\
  (forall d, kw = Fresh d ->
     st' = st /\ forall kw', r = Ok kw' -> exists d', kw' = Fresh d').
Proof.
  unfold handle_interactivity, bind, deref, orig_getitem, orig_setitem,
    kwargs_setitem, ret, bind.
  destruct kw as [d|]; simpl;
    repeat match goal with
           | |- context [match dict_get ?k ?x with _ => _ end] =>
               destruct (dict_get k x); simpl
           | |- context [if ?c then _ else _] => destruct c; simpl
           end;
    intros [= <- <-]; simpl;
    refine (conj eq_refl (conj eq_refl (conj eq_refl _)));
    intros d0 E0; try discriminate E0;
    (split; [reflexivity|]); intros kw' E'; try discriminate E';
    injection E' as <-; eauto.
Qed.

(** ** The invariant holds from construction on *)

Lemma In_keys_get (k : string) (d : dict) :
  In k (keys d) -> exists v, dict_get k d = Some v.
Proof.
  intros H. destruct (dict_get k d) as [v|] eqn:E; [eauto|].
  apply dict_get_None in E. contradiction.
Qed.

Lemma option_names_In (k : string) :
  In k option_names <-> mem k option_names = true.
Proof. symmetry. apply mem_In. Qed.

Lemma wf_orig_get (st : Options) (k : string) :
  wf st -> In k option_names -> exists v, dict_get k (orig_options st) = Some v.
Proof. intros [_ H] I. apply In_keys_get. now rewrite H. Qed.

Lemma wf_get (st : Options) (k : string) :
  wf st -> In k option_names -> exists v, dict_get k (options st) = Some v.
Proof. intros [H _] I. apply In_keys_get. now rewrite H. Qed.

Lemma wf_has (st : Options) (k : string) :
  wf st -> dict_has k (options st) = mem k option_names.
Proof.
  intros [H _]. destruct (mem k option_names) eqn:E.
  - apply dict_has_In. rewrite H. now apply mem_In.
  - destruct (dict_has k (options st)) eqn:E'; [|reflexivity].
    apply dict_has_In in E'. rewrite H in E'. apply mem_In in E'. congruence.
Qed.

Lemma keys_expand (ob i : PyVal) (d : dict) :
  In "show" (keys d) -> In "close" (keys d) -> In "backend" (keys d) ->
  keys (expand ob i d) = keys d.
Proof.
  intros Hs Hc Hb. unfold expand. destruct (truthy i).
  - rewrite keys_dict_set_In; rewrite keys_dict_set_In;
      try rewrite keys_dict_set_In; auto.
  - rewrite keys_dict_set_In; rewrite keys_dict_set_In; auto.
Qed.

Lemma py_int_state w v st : snd (py_int w v st) = st.
Proof.
  unfold py_int, ret, raise.
  destruct v as [| | |[| |]| | |]; try reflexivity.
  now destruct (int_of_str w s).
Qed.

Lemma py_float_state w v st : snd (py_float w v st) = st.
Proof.
  unfold py_float, ret, raise. destruct v; try reflexivity.
  now destruct (float_of_str w s).
Qed.

(** A store that was built holds the recognized names, with defaults equal
    to the live values. *)
Lemma new_Options_wf w st :
  new_Options w = (Ok tt, st) -> wf st /\ orig_options st = options st.
Proof.
  unfold new_Options, __init__, _set_default_options, capture_orig_options,
    load_custom_fonts, emit, bind.
  repeat match goal with
         | |- context [py_float w ?v ?s] =>
             let H := fresh in
             pose proof (py_float_state w v s) as H;
             destruct (py_float w v s) as [[?|?] ?]; simpl in H; subst;
             [|discriminate]
         | |- context [py_int w ?v ?s] =>
             let H := fresh in
             pose proof (py_int_state w v s) as H;
             destruct (py_int w v s) as [[?|?] ?]; simpl in H; subst;
             [|discriminate]
         end.
  intros [= <-]. split; [split|]; reflexivity.
Qed.

Lemma resolved_items_frame w key value kwargs st r st0 :
  resolved_items w key value kwargs st = (r, st0) ->
  options st0 = options st /\ optdesc st0 = optdesc st /\ quiet st st0 /\
  (requested key value kwargs <> OrigOptions ->
   orig_options st0 = orig_options st).
Proof.
  unfold resolved_items, bind.
  destruct (resolve_overrides_spec w key value kwargs st)
    as (st1 & E & Ho & Hd & Hp & Hq).
  rewrite E.
  destruct (handle_interactivity _ st1) as [[kw2|e] st2] eqn:HI;
    apply handle_interactivity_frame in HI;
    destruct HI as (Io & Ip & Il & IF); unfold deref; intros [= <- <-].
  all: refine (conj _ (conj _ (conj _ _))); try congruence.
  all: try (apply (quiet_trans _ _ _ Hq); now apply quiet_log).
  all: intros N; destruct (requested key value kwargs) as [d|];
    [|contradiction]; destruct (IF d eq_refl) as [-> _]; assumption.
Qed.

Lemma resolved_items_wf w key value kwargs st r st0 :
  wf st -> resolved_items w key value kwargs st = (r, st0) -> wf st0.
Proof.
  intros W H. pose proof (resolved_items_frame _ _ _ _ _ _ _ H)
    as (Ho & _ & _ & Hd).
  destruct W as [W1 W2]. split; [congruence|].
  destruct (requested key value kwargs) as [d|] eqn:R.
  - rewrite Hd by discriminate. assumption.
  - revert H. unfold resolved_items, bind.
    destruct (resolve_overrides_spec w key value kwargs st)
      as (st1 & E & Ho1 & Hd1 & _ & _).
    rewrite E, R.
    destruct (In_keys_get "interactive" (orig_options st1)) as [oi Hoi].
    { rewrite Hd1, W2. apply mem_In. reflexivity. }
    destruct (In_keys_get "backend" (orig_options st1)) as [ob Hob].
    { rewrite Hd1, W2. apply mem_In. reflexivity. }
    rewrite (handle_interactivity_Orig st1 oi ob Hoi Hob).
    unfold deref. intros [= <- <-]. simpl.
    rewrite keys_expand; rewrite Hd1, W2; try reflexivity;
      apply mem_In; reflexivity.
Qed.

(** [set] keeps the invariant, whether it returns or raises. *)
Lemma set_wf w key value kwargs st :
  wf st -> wf (snd (set w key value kwargs st)).
Proof.
  intros W. rewrite set_split. unfold bind.
  destruct (resolved_items w key value kwargs st) as [[items|e] st0] eqn:R;
    pose proof (resolved_items_wf _ _ _ _ _ _ _ W R) as W0; [|assumption].
  destruct (reset_options w items false st0) as [[rr|e] st1] eqn:L;
    apply reset_options_inv in L; destruct L as (Lo & _ & _ & Lk & _);
    destruct W0 as [W1 W2].
  - destruct rr; unfold reload_numba, emit, ret; split; simpl; congruence.
  - simpl. split; congruence.
Qed.

Lemma example_options_wf (env : list (string * string)) :
  fst (new_Options (example_world env)) = Ok tt -> wf (example_options env).
Proof.
  intros H. unfold example_options.
  destruct (new_Options (example_world env)) as [r st] eqn:E.
  simpl in H. subst r. now apply new_Options_wf in E.
Qed.

(** ** What "Handle interactivity" leaves in the dictionary *)

Lemma dict_get_expand_show ob i d :
  dict_get "show" (expand ob i d) = Some (VBool (truthy i)).
Proof.
  unfold expand. destruct (truthy i);
    rewrite !dict_get_set_other by discriminate; apply dict_get_set_same.
Qed.

Lemma dict_get_expand_backend ob i d :
  dict_get "backend" (expand ob i d) = Some (if truthy i then ob else VStr "agg").
Proof. unfold expand. destruct (truthy i); apply dict_get_set_same. Qed.

Lemma dict_get_expand_close ob i d :
  dict_get "close" (expand ob i d) =
  if truthy i then Some (VBool false) else dict_get "close" d.
Proof.
  unfold expand. destruct (truthy i).
  - rewrite dict_get_set_other by discriminate. apply dict_get_set_same.
  - now rewrite !dict_get_set_other by discriminate.
Qed.

Lemma dict_get_expand_other ob i d k :
  k <> "show" -> k <> "close" -> k <> "backend" ->
  dict_get k (expand ob i d) = dict_get k d.
Proof.
  intros. unfold expand.
  destruct (truthy i); now rewrite !dict_get_set_other by assumption.
Qed.

Lemma NoDup_expand ob i d : NoDup (keys d) -> NoDup (keys (expand ob i d)).
Proof.
  intros H. unfold expand.
  destruct (truthy i); repeat apply NoDup_dict_set; assumption.
Qed.

(** An entry of the defaults is stored as it is: if it reads [None] or
    ['default'], the fallback is that same entry. *)
Lemma stored_self (d : dict) (k : string) (v : PyVal) :
  NoDup (keys d) -> In (k, v) d -> stored d k v = Some v.
Proof.
  intros ND I. unfold stored.
  destruct (in_None_default v); [now apply In_dict_get | reflexivity].
Qed.

Lemma mpl_accepts_rc w k v :
  In k ["dpi"; "font_size"; "font_family"] -> mpl_accepts w k v = true.
Proof.
  intros [<-|[<-|[<-|[]]]]; unfold mpl_accepts; simpl; apply orb_true_r.
Qed.


(** ** The call as a whole *)

Lemma resolved_items_total w key value kwargs st oi ob :
  dict_get "interactive" (orig_options st) = Some oi ->
  dict_get "backend" (orig_options st) = Some ob ->
  exists st0,
    resolved_items w key value kwargs st =
      (Ok (resolved_dict (orig_options st) (requested key value kwargs) oi ob),
       st0).
Proof.
  intros Hoi Hob. unfold resolved_items, bind.
  destruct (resolve_overrides_spec w key value kwargs st)
    as (st1 & E & _ & Hd & _ & _).
  rewrite E. rewrite <- Hd in Hoi, Hob. unfold resolved_dict. rewrite <- Hd.
  destruct (requested key value kwargs) as [d|].
  - destruct (dict_get "interactive" d) as [i|] eqn:Hi.
    + rewrite (handle_interactivity_Fresh d st1 i oi ob Hi Hoi Hob).
      eexists. reflexivity.
    + rewrite (handle_interactivity_absent (Fresh d) st1 d eq_refl Hi).
      eexists. reflexivity.
  - rewrite (handle_interactivity_Orig st1 oi ob Hoi Hob). rewrite Hoi.
    eexists. unfold deref. simpl. now destruct (in_None_default oi).
Qed.

(** The defaults after the two blocks: rewritten only by the reset. *)
Lemma resolved_items_orig w key value kwargs st oi ob r st0 :
  dict_get "interactive" (orig_options st) = Some oi ->
  dict_get "backend" (orig_options st) = Some ob ->
  resolved_items w key value kwargs st = (r, st0) ->
  orig_options st0 =
  match requested key value kwargs with
  | Fresh _ => orig_options st
  | OrigOptions => expand ob oi (orig_options st)
  end.
Proof.
  intros Hoi Hob. unfold resolved_items, bind.
  destruct (resolve_overrides_spec w key value kwargs st)
    as (st1 & E & _ & Hd & _ & _).
  rewrite E. rewrite <- Hd in Hoi, Hob |- *.
  destruct (requested key value kwargs) as [d|].
  - destruct (handle_interactivity (Fresh d) st1) as [[kw2|e] st2] eqn:HI;
      apply handle_interactivity_frame in HI;
      destruct HI as (_ & _ & _ & IF); destruct (IF d eq_refl) as [-> _];
      unfold deref; now intros [= _ <-].
  - rewrite (handle_interactivity_Orig st1 oi ob Hoi Hob).
    unfold deref. now intros [= _ <-].
Qed.

Lemma NoDup_requested st key value kwargs d :
  wf st -> NoDup (keys kwargs) ->
  d = match requested key value kwargs with
      | Fresh d => d
      | OrigOptions => orig_options st
      end ->
  NoDup (keys d).
Proof.
  intros [_ W2] ND ->. unfold requested. destruct key as [k|]; [|assumption].
  destruct (mem k ["default"; "defaults"]).
  - rewrite W2. apply option_names_NoDup.
  - destruct (str_in "jupyter" (lower k)); apply NoDup_mergedicts.
Qed.

(** The dictionary the loop walks has distinct keys, as every Python
    dictionary has. *)
Lemma resolved_items_NoDup w key value kwargs st items st0 :
  wf st -> NoDup (keys kwargs) ->
  resolved_items w key value kwargs st = (Ok items, st0) ->
  NoDup (keys items).
Proof.
  intros W ND R.
  destruct (wf_orig_get st "interactive" W) as [oi Hoi];
    [apply mem_In; reflexivity|].
  destruct (wf_orig_get st "backend" W) as [ob Hob];
    [apply mem_In; reflexivity|].
  destruct (resolved_items_total w key value kwargs st oi ob Hoi Hob)
    as [st0' E].
  rewrite E in R. injection R as <- _.
  unfold resolved_dict.
  pose proof (NoDup_requested st key value kwargs _ W ND eq_refl) as N.
  set (d := match requested key value kwargs with
            | Fresh d => d
            | OrigOptions => orig_options st
            end) in *.
  cbv zeta. destruct (dict_get "interactive" d);
    [now apply NoDup_expand | assumption].
Qed.

(** What a call that returned has done to the live values. *)
Lemma set_Ok_inv w key value kwargs st items st0 st' :
  resolved_items w key value kwargs st = (Ok items, st0) ->
  set w key value kwargs st = (Ok tt, st') ->
  (NoDup (keys items) ->
   forall k v, In (k, v) items ->
   exists x, stored (orig_options st0) k v = Some x /\
             dict_get k (options st') = Some x) /\
  (forall k, ~ In k (keys items) ->
     dict_get k (options st') = dict_get k (options st)) /\
  orig_options st' = orig_options st0.
Proof.
  intros R. rewrite set_split. unfold bind. rewrite R.
  pose proof (resolved_items_frame _ _ _ _ _ _ _ R) as (Ro & _).
  destruct (reset_options w items false st0) as [[rr|e] st1] eqn:L;
    [|discriminate].
  apply reset_options_inv in L. destruct L as (Lo & _ & _ & _ & Lf & Lc).
  destruct (Lc _ eq_refl) as [_ Lin].
  assert (E : forall s, (if rr then reload_numba else ret tt) st1 = (Ok tt, s) ->
              options s = options st1 /\ orig_options s = orig_options st1).
  { destruct rr; unfold reload_numba, emit, ret; intros s [= <-]; auto. }
  intros H. apply E in H. destruct H as [-> ->].
  split; [exact Lin|]. split; [|exact Lo].
  intros k N. rewrite Lf by assumption. now rewrite Ro.
Qed.

(** A call returns when every pair it resolved names an option and carries
    a value Matplotlib takes. *)
Lemma set_returns w key value kwargs st items st0 :
  wf st ->
  resolved_items w key value kwargs st = (Ok items, st0) ->
  (forall k v, In (k, v) items ->
     In k option_names /\
     exists x, stored (orig_options st0) k v = Some x /\
               (mem k matplotlib_keys = true -> mpl_accepts w k x = true)) ->
  exists st', set w key value kwargs st = (Ok tt, st').
Proof.
  intros W R H.
  pose proof (resolved_items_frame _ _ _ _ _ _ _ R) as (Ro & _).
  destruct (reset_options_total w items false st0) as [st1 L].
  { intros k v I. destruct (H k v I) as [I1 I2]. split; [|exact I2].
    rewrite Ro. destruct W as [-> _]. exact I1. }
  rewrite set_split. unfold bind. rewrite R, L.
  destruct (false || existsb is_numba items); eexists; reflexivity.
Qed.

(** A call whose resolved pairs carry plain values that Matplotlib takes
    returns, and each pair then reads back. *)
Lemma set_plain_values w key value kwargs st items st0 :
  wf st ->
  resolved_items w key value kwargs st = (Ok items, st0) ->
  NoDup (keys items) ->
  (forall k v, In (k, v) items ->
     In k option_names /\ in_None_default v = false /\
     (mem k matplotlib_keys = true -> mpl_accepts w k v = true)) ->
  exists st', set w key value kwargs st = (Ok tt, st') /\
              forall k v, In (k, v) items -> get st' k = v.
Proof.
  intros W R NI H.
  destruct (set_returns w key value kwargs st items st0 W R) as [st' S].
  { intros k v I. destruct (H k v I) as (Hk & Hv & Hm). split; [exact Hk|].
    exists v. unfold stored. rewrite Hv. auto. }
  exists st'. split; [exact S|].
  destruct (set_Ok_inv _ _ _ _ _ _ _ _ R S) as (Sin & _ & _).
  intros k v I. destruct (Sin NI k v I) as [x [Sx Gx]].
  destruct (H k v I) as (_ & Hv & _).
  unfold stored in Sx. rewrite Hv in Sx. injection Sx as <-.
  unfold get. now rewrite Gx.
Qed.

(** Calls other than the reset keep the defaults. *)
Lemma set_keeps_orig_options w key value kwargs st :
  requested key value kwargs <> OrigOptions ->
  orig_options (snd (set w key value kwargs st)) = orig_options st.
Proof.
  intros N. rewrite set_split. unfold bind.
  destruct (resolved_items w key value kwargs st) as [[items|e] st0] eqn:R;
    apply resolved_items_frame in R; destruct R as (_ & _ & _ & Rd);
    specialize (Rd N); [|assumption].
  destruct (reset_options w items false st0) as [[rr|e] st1] eqn:L;
    apply reset_options_inv in L; destruct L as (Lo & _).
  - destruct rr; unfold reload_numba, emit, ret; simpl; congruence.
  - simpl. congruence.
Qed.

(** The reset leaves in the defaults what "Handle interactivity" wrote
    there. *)
Lemma set_defaults_orig_options w st key value kwargs oi ob :
  In key ["default"; "defaults"] ->
  dict_get "interactive" (orig_options st) = Some oi ->
  dict_get "backend" (orig_options st) = Some ob ->
  orig_options (snd (set w (Some key) value kwargs st))
  = expand ob oi (orig_options st).
Proof.
  intros Hk Hoi Hob. rewrite set_split. unfold bind.
  destruct (resolved_items w (Some key) value kwargs st) as [r st0] eqn:R.
  pose proof (resolved_items_orig _ _ _ _ _ _ _ _ _ Hoi Hob R) as Ho.
  unfold requested in Ho. apply mem_In in Hk. rewrite Hk in Ho.
  destruct r as [items|e]; [|exact Ho].
  destruct (reset_options w items false st0) as [[rr|e] st1] eqn:L;
    apply reset_options_inv in L; destruct L as (Lo & _).
  - destruct rr; unfold reload_numba, emit, ret; simpl; congruence.
  - simpl. congruence.
Qed.

(** * The claims *)

(** ** C1 *)

(** C1 does not hold of the code: [set('defaults')] binds [kwargs] to the
    object [self.orig_options] itself, and "Handle interactivity" then
    writes [show], [close] and [backend] into it.  On a host started with
    [COVASIM_SHOW=0] the captured default of [show] is [0]; after one
    [set('defaults')] the defaults hold [True] there, and a later
    [set('show', 'default')] stores [True]. *)
Theorem set_defaults_overwrites_orig_options :
  let env := [("COVASIM_SHOW", "0")] in
  let w := example_world env in
  let st0 := example_options env in
  let st1 := snd (set w (Some "defaults") VNone [] st0) in
  let st2 := snd (set w (Some "show") (VStr "default") [] st1) in
  fst (new_Options w) = Ok tt /\
  dict_get "show" (orig_options st0) = Some (VInt 0) /\
  fst (set w (Some "defaults") VNone [] st0) = Ok tt /\
  dict_get "show" (orig_options st1) = Some (VBool true) /\
  fst (set w (Some "show") (VStr "default") [] st1) = Ok tt /\
  get st2 "show" = VBool true /\
  truthy (VInt 0) <> truthy (VBool true).
Proof. cbv zeta. repeat split; vm_compute; congruence. Qed.

(** ** C2 *)

(** C2, as stated, fails: on a host started with [COVASIM_STYLE=bogus] the
    default style is one Matplotlib refuses, so [set('defaults')] raises
    when the loop reaches [style]; [dpi], which comes later and had been
    set to 300, is not restored. *)
Lemma set_defaults_counterexample :
  let env := [("COVASIM_STYLE", "bogus")] in
  let w := example_world env in
  let st0 := example_options env in
  let st1 := snd (set w None VNone [("dpi", VInt 300)] st0) in
  let call := set w (Some "defaults") VNone [] st1 in
  fst (new_Options w) = Ok tt /\
  fst (set w None VNone [("dpi", VInt 300)] st0) = Ok tt /\
  fst call = Raise (ValueError "bogus" (style_available w)) /\
  get (snd call) "dpi" = VInt 300 /\
  dict_get "dpi" (orig_options (snd call)) = Some (VInt 100).
Proof. cbv zeta. repeat split; vm_compute; reflexivity. Qed.

(** C2, amended. When Matplotlib accepts the default style and the backend
    that the default of [interactive] selects, [set('defaults')] (or
    [set('default')]) returns normally and afterwards, for every option
    name [k], [get(k)] is the entry [orig_options[k]]; for every name other
    than [show], [close] and [backend] that entry is the one the defaults
    held before the call. *)
Theorem set_defaults_restores (w : World) (st : Options) (key : string)
    (value : PyVal) (kwargs : dict) (oi ob os : PyVal) :
  wf st ->
  In key ["default"; "defaults"] ->
  dict_get "interactive" (orig_options st) = Some oi ->
  dict_get "backend" (orig_options st) = Some ob ->
  dict_get "style" (orig_options st) = Some os ->
  mpl_accepts w "backend" (if truthy oi then ob else VStr "agg") = true ->
  mpl_accepts w "style" os = true ->
  exists st',
    set w (Some key) value kwargs st = (Ok tt, st') /\
    (forall k, In k option_names ->
       Some (get st' k) = dict_get k (orig_options st')) /\
    (forall k, In k option_names ->
       k <> "show" -> k <> "close" -> k <> "backend" ->
       Some (get st' k) = dict_get k (orig_options st)).
Proof.
  intros W Hkey Hoi Hob Hos Ab As.
  pose proof W as [W1 W2].
  set (D := expand ob oi (orig_options st)).
  set (st0 := with_orig st D).
  assert (KD : keys D = option_names).
  { unfold D. rewrite keys_expand; rewrite W2; try reflexivity;
      apply mem_In; reflexivity. }
  assert (ND : NoDup (keys D)) by (rewrite KD; apply option_names_NoDup).
  assert (R : resolved_items w (Some key) value kwargs st = (Ok D, st0)).
  { unfold resolved_items, bind.
    rewrite resolve_overrides_plain by (left; now apply mem_In).
    unfold requested. apply mem_In in Hkey. rewrite Hkey.
    now rewrite (handle_interactivity_Orig st oi ob Hoi Hob). }
  destruct (reset_options_total w D false st0) as [st1 L].
  { intros k v I. split.
    - simpl. rewrite W1, <- KD. now apply (in_map fst) in I.
    - exists v. split; [now apply stored_self|].
      intros Mk. apply mem_In in Mk.
      pose proof (In_dict_get _ _ _ ND I) as G.
      destruct Mk as [<-|[<-|Mk]].
      + unfold D in G. rewrite dict_get_expand_backend in G.
        injection G as <-. exact Ab.
      + unfold D in G. rewrite dict_get_expand_other in G by discriminate.
        rewrite Hos in G. injection G as <-. exact As.
      + now apply mpl_accepts_rc. }
  pose proof (reset_options_inv _ _ _ _ _ _ L) as (Lo & _ & _ & _ & _ & Lc).
  destruct (Lc _ eq_refl) as [_ Lin]. specialize (Lin ND).
  assert (Get : forall k, In k option_names ->
                  Some (match dict_get k (options st1) with
                        | Some v => v | None => VNone end) = dict_get k D).
  { intros k I. rewrite <- KD in I.
    destruct (In_keys_get _ _ I) as [v G]. rewrite G.
    destruct (Lin k v (dict_get_In _ _ _ G)) as [x [Sx Gx]].
    simpl in Sx. rewrite stored_self in Sx
      by (try assumption; now apply dict_get_In).
    injection Sx as <-. now rewrite Gx. }
  set (rr := false || existsb is_numba D) in L.
  exists (snd ((if rr then reload_numba else ret tt) st1)).
  split; [|split].
  - rewrite set_split. unfold bind. rewrite R, L.
    destruct rr; reflexivity.
  - intros k I. unfold get.
    replace (options (snd ((if rr then reload_numba else ret tt) st1)))
      with (options st1) by (destruct rr; reflexivity).
    replace (orig_options (snd ((if rr then reload_numba else ret tt) st1)))
      with D by (destruct rr; simpl; now rewrite Lo).
    now apply Get.
  - intros k I N1 N2 N3. unfold get.
    replace (options (snd ((if rr then reload_numba else ret tt) st1)))
      with (options st1) by (destruct rr; reflexivity).
    rewrite (Get k I). unfold D. now apply dict_get_expand_other.
Qed.

Lemma set_defaults_restores_witness :
  exists st',
    set (example_world []) (Some "defaults") VNone [] (example_options [])
      = (Ok tt, st') /\
    (forall k, In k option_names ->
       Some (get st' k) = dict_get k (orig_options st')) /\
    (forall k, In k option_names ->
       k <> "show" -> k <> "close" -> k <> "backend" ->
       Some (get st' k) = dict_get k (orig_options (example_options []))).
Proof.
  apply (set_defaults_restores (example_world []) (example_options [])
           "defaults" VNone [] (VBool true) (VStr "TkAgg") (VStr "covasim")).
  - apply example_options_wf. reflexivity.
  - simpl. tauto.
  - reflexivity.
  - reflexivity.
  - reflexivity.
  - reflexivity.
  - reflexivity.
Defined.

(** ** C3 *)

(** C3, as stated, fails: [set(style='not-a-real-style')] raises, but the
    loop has stored the name before Matplotlib refused it, so [get('style')]
    no longer returns what it returned before the call.  Two names that are
    neither ['covasim'] nor registered do not raise at all: the empty name
    is skipped by the guard [if value:], and ['default'] is replaced by the
    default style before Matplotlib sees it. *)
Lemma set_invalid_style_counterexample :
  let w := example_world [] in
  let st := example_options [] in
  let call := set w None VNone [("style", VStr "not-a-real-style")] st in
  fst call = Raise (ValueError "not-a-real-style" (style_available w)) /\
  get st "style" = VStr "covasim" /\
  get (snd call) "style" = VStr "not-a-real-style" /\
  fst (set w None VNone [("style", VStr "")] st) = Ok tt /\
  fst (set w None VNone [("style", VStr "default")] st) = Ok tt.
Proof. cbv zeta. repeat split; vm_compute; reflexivity. Qed.

(** C3, amended. For a non-empty style name [s] other than ['default'] that
    is neither ['covasim'] (in any case) nor a registered style,
    [set(style=s)] raises the [ValueError] that lists the registered
    styles; when it is raised the name has been stored, so [get('style')]
    returns [s], while every other option, the defaults and the log of
    outside calls are as before. *)
Theorem set_invalid_style (w : World) (st : Options) (s : string) :
  wf st ->
  s <> "" -> s <> "default" ->
  lower s <> "covasim" -> ~ In s (style_available w) ->
  exists st',
    set w None VNone [("style", VStr s)] st
      = (Raise (ValueError s (style_available w)), st') /\
    get st' "style" = VStr s /\
    (forall k, k <> "style" -> get st' k = get st k) /\
    orig_options st' = orig_options st /\ log st' = log st.
Proof.
  intros W Ne Nd Nc Na.
  exists (snd (setitem "style" (VStr s) st)).
  split; [|split; [|split; [|split]]].
  - unfold set, bind. simpl. unfold bind. rewrite reset_option_unfold.
    rewrite (wf_has _ _ W). unfold stored. simpl.
    apply String.eqb_neq in Nd. rewrite Nd.
    change (mem "style" option_names) with true.
    change (mem "style" matplotlib_keys) with true. simpl.
    unfold set_matplotlib_global. simpl.
    apply String.eqb_neq in Ne. rewrite Ne. simpl.
    apply String.eqb_neq in Nc. rewrite Nc.
    apply mem_not_In in Na. rewrite Na. reflexivity.
  - unfold get. simpl. now rewrite dict_get_set_same.
  - intros k N. unfold get. simpl. now rewrite dict_get_set_other.
  - reflexivity.
  - reflexivity.
Qed.

Lemma set_invalid_style_witness :
  exists st',
    set (example_world []) None VNone [("style", VStr "not-a-real-style")]
      (example_options [])
      = (Raise (ValueError "not-a-real-style"
                  (style_available (example_world []))), st') /\
    get st' "style" = VStr "not-a-real-style" /\
    (forall k, k <> "style" -> get st' k = get (example_options []) k) /\
    orig_options st' = orig_options (example_options []) /\
    log st' = log (example_options []).
Proof.
  apply set_invalid_style.
  - apply example_options_wf. reflexivity.
  - discriminate.
  - discriminate.
  - discriminate.
  - apply mem_not_In. reflexivity.
Defined.

(** ** C4 *)

(** C4, as stated, fails: with value [None] the guard [if value:] skips the
    whole body, so no [pl.style.use('default')] is made. *)
Lemma set_matplotlib_global_None_counterexample :
  let w := example_world [] in
  let st := example_options [] in
  set_matplotlib_global w "style" VNone None st = (Ok tt, st) /\
  ~ In (StyleUse "default") (log st).
Proof.
  cbv zeta. split; [reflexivity|].
  vm_compute. intros [H|[]]. discriminate H.
Qed.

(** C4, amended. For key ['style'], a name that lower-cases to ['covasim']
    makes the one call [pl.style.use('default')] and nothing else; the
    value [None] is skipped like every falsy value: no call, no change. *)
Theorem set_matplotlib_global_style (w : World) (fonts : option (list string))
    (st : Options) (s : string) :
  lower s = "covasim" ->
  set_matplotlib_global w "style" (VStr s) fonts st
    = (Ok tt, snd (emit (StyleUse "default") st)) /\
  set_matplotlib_global w "style" VNone fonts st = (Ok tt, st) /\
  (forall key v, truthy v = false ->
     set_matplotlib_global w key v fonts st = (Ok tt, st)).
Proof.
  intros L. split; [|split].
  - unfold set_matplotlib_global.
    assert (T : truthy (VStr s) = true).
    { destruct s; [discriminate L | reflexivity]. }
    rewrite T. simpl. rewrite L. reflexivity.
  - reflexivity.
  - intros key v T. unfold set_matplotlib_global. now rewrite T.
Qed.

Lemma set_matplotlib_global_style_witness :
  set_matplotlib_global (example_world []) "style" (VStr "CovaSim") None
    (example_options [])
  = (Ok tt, snd (emit (StyleUse "default") (example_options []))).
Proof.
  apply (set_matplotlib_global_style (example_world []) None
           (example_options []) "CovaSim").
  reflexivity.
Defined.

(** ** C5 *)

(** C5. [set] is not transactional.  When a call raises in its loop, the
    resolved pairs split into those before the failing pair, the failing
    pair and the rest; every pair before the failing one went through and
    its value ([v], or the default when [v] is [None] or ['default']) is in
    the live mapping when the error reaches the caller. *)
Theorem set_not_transactional (w : World) (key : option string)
    (value : PyVal) (kwargs : dict) (st st0 st' : Options) (items : dict)
    (e : exn) :
  wf st -> NoDup (keys kwargs) ->
  resolved_items w key value kwargs st = (Ok items, st0) ->
  set w key value kwargs st = (Raise e, st') ->
  exists pre k v post,
    items = pre ++ (k, v) :: post /\
    (exists rr1 st1,
       reset_options w pre false st0 = (Ok rr1, st1) /\
       reset_option w k v rr1 st1 = (Raise e, st')) /\
    (forall k' v', In (k', v') pre ->
       exists x, stored (orig_options st0) k' v' = Some x /\
                 dict_get k' (options st') = Some x /\ get st' k' = x).
Proof.
  intros W ND R. pose proof (resolved_items_NoDup _ _ _ _ _ _ _ W ND R) as NI.
  rewrite set_split. unfold bind. rewrite R.
  destruct (reset_options w items false st0) as [[rr|e1] st1] eqn:L.
  { destruct rr; unfold reload_numba, emit, ret; discriminate. }
  intros [= <- <-].
  destruct (reset_options_raise _ _ _ _ _ _ L)
    as (pre & k & v & post & rr2 & st2 & -> & Lp & Ls).
  exists pre, k, v, post. split; [reflexivity|]. split; [eauto|].
  intros k' v' I.
  pose proof (reset_options_inv _ _ _ _ _ _ Lp) as (_ & _ & _ & _ & _ & Pc).
  destruct (Pc _ eq_refl) as [_ Pin].
  unfold keys in NI. rewrite map_app in NI.
  pose proof (NoDup_app_remove_r _ _ NI) as Npre.
  destruct (Pin Npre k' v' I) as [x [Sx Gx]].
  pose proof (reset_option_inv _ _ _ _ _ _ _ Ls) as (_ & _ & _ & _ & Sf & _).
  assert (N : k' <> k).
  { intros ->. apply NoDup_remove_2 in NI. apply NI.
    apply in_or_app. left. now apply (in_map fst) in I. }
  exists x. split; [assumption|].
  assert (G : dict_get k' (options st1) = Some x) by (now rewrite Sf).
  split; [assumption|]. unfold get. now rewrite G.
Qed.

Lemma set_not_transactional_witness :
  exists pre k v post,
    [("dpi", VInt 300); ("colour", VInt 1)] = pre ++ (k, v) :: post /\
    (exists rr1 st1,
       reset_options (example_world []) pre false (example_options [])
         = (Ok rr1, st1) /\
       reset_option (example_world []) k v rr1 st1
         = (Raise (KeyNotFoundError "colour" option_names),
            snd (set (example_world []) None VNone
                   [("dpi", VInt 300); ("colour", VInt 1)]
                   (example_options [])))) /\
    (forall k' v', In (k', v') pre ->
       exists x,
         stored (orig_options (example_options [])) k' v' = Some x /\
         dict_get k' (options (snd (set (example_world []) None VNone
                                      [("dpi", VInt 300); ("colour", VInt 1)]
                                      (example_options [])))) = Some x /\
         get (snd (set (example_world []) None VNone
                     [("dpi", VInt 300); ("colour", VInt 1)]
                     (example_options []))) k' = x).
Proof.
  apply (set_not_transactional (example_world []) None VNone
           [("dpi", VInt 300); ("colour", VInt 1)] (example_options [])).
  - apply example_options_wf. reflexivity.
  - repeat constructor; simpl; intuition discriminate.
  - reflexivity.
  - reflexivity.
Defined.

(** ** C6 *)

(** C6. When [interactive] is among the overrides a call resolved, with
    effective value [i'] (the given value, or the default of [interactive]
    when the given value is [None] or ['default']): the dictionary the loop
    walks holds [show=True], [close=False] and the default backend when
    [i'] is truthy, and [show=False], [backend='agg'] and the [close] entry
    it had (if any) when [i'] is falsy.  A call that returns has stored
    exactly these: [show], [close], [backend] read [True], [False], the
    default backend in the first case; [show] and [backend] read [False]
    and ['agg'] in the second, where [close] keeps its value unless the
    caller passed [close] too. *)
Theorem set_interactive (w : World) (key : option string) (value : PyVal)
    (kwargs : dict) (st st1 : Options) (kw : kwargs_ref) (d : dict)
    (i i' : PyVal) :
  wf st -> NoDup (keys kwargs) ->
  resolve_overrides w key value kwargs st = (Ok kw, st1) ->
  fst (deref kw st1) = Ok d ->
  dict_get "interactive" d = Some i ->
  (if in_None_default i then dict_get "interactive" (orig_options st)
   else Some i) = Some i' ->
  exists items st0,
    resolved_items w key value kwargs st = (Ok items, st0) /\
    (truthy i' = true ->
       dict_get "show" items = Some (VBool true) /\
       dict_get "close" items = Some (VBool false) /\
       dict_get "backend" items = dict_get "backend" (orig_options st)) /\
    (truthy i' = false ->
       dict_get "show" items = Some (VBool false) /\
       dict_get "backend" items = Some (VStr "agg") /\
       dict_get "close" items = dict_get "close" d) /\
    (forall st', set w key value kwargs st = (Ok tt, st') ->
       (truthy i' = true ->
          get st' "show" = VBool true /\ get st' "close" = VBool false /\
          Some (get st' "backend") = dict_get "backend" (orig_options st)) /\
       (truthy i' = false ->
          get st' "show" = VBool false /\ get st' "backend" = VStr "agg" /\
          (dict_get "close" d = None -> get st' "close" = get st "close"))).
Proof.
  intros W ND RO Hd Hi Hi'.
  destruct (wf_orig_get st "interactive" W) as [oi Hoi];
    [apply mem_In; reflexivity|].
  destruct (wf_orig_get st "backend" W) as [ob Hob];
    [apply mem_In; reflexivity|].
  destruct (resolve_overrides_spec w key value kwargs st)
    as (st1' & E & _ & Hd1 & _ & _).
  rewrite E in RO. injection RO as <- <-.
  assert (Dd : d = match requested key value kwargs with
                   | Fresh d => d | OrigOptions => orig_options st end).
  { unfold deref in Hd. simpl in Hd. injection Hd as <-.
    destruct (requested key value kwargs); [reflexivity | exact Hd1]. }
  assert (Ei : (if in_None_default i then oi else i) = i').
  { rewrite Hoi in Hi'. destruct (in_None_default i); congruence. }
  destruct (resolved_items_total w key value kwargs st oi ob Hoi Hob)
    as [st0 R].
  assert (Items : resolved_dict (orig_options st) (requested key value kwargs)
                    oi ob = expand ob i' d).
  { unfold resolved_dict. cbv zeta. rewrite <- Dd, Hi, Ei. reflexivity. }
  rewrite Items in R.
  exists (expand ob i' d), st0. split; [exact R|].
  assert (A : truthy i' = true ->
              dict_get "show" (expand ob i' d) = Some (VBool true) /\
              dict_get "close" (expand ob i' d) = Some (VBool false) /\
              dict_get "backend" (expand ob i' d)
                = dict_get "backend" (orig_options st)).
  { intros T. rewrite dict_get_expand_show, dict_get_expand_close,
      dict_get_expand_backend, T, Hob. auto. }
  assert (B : truthy i' = false ->
              dict_get "show" (expand ob i' d) = Some (VBool false) /\
              dict_get "backend" (expand ob i' d) = Some (VStr "agg") /\
              dict_get "close" (expand ob i' d) = dict_get "close" d).
  { intros T. rewrite dict_get_expand_show, dict_get_expand_close,
      dict_get_expand_backend, T. auto. }
  split; [exact A|]. split; [exact B|].
  intros st' S.
  pose proof (resolved_items_NoDup _ _ _ _ _ _ _ W ND R) as NI.
  destruct (set_Ok_inv _ _ _ _ _ _ _ _ R S) as (Sin & Sf & So).
  specialize (Sin NI).
  assert (Lit : forall k v, dict_get k (expand ob i' d) = Some v ->
                  in_None_default v = false -> get st' k = v).
  { intros k v G Nv. destruct (Sin k v (dict_get_In _ _ _ G)) as [x [Sx Gx]].
    unfold stored in Sx. rewrite Nv in Sx. injection Sx as <-.
    unfold get. now rewrite Gx. }
  split; intros T.
  - destruct (A T) as (As & Ac & Ab).
    split; [now apply Lit|]. split; [now apply Lit|].
    rewrite Hob in Ab |- *.
    destruct (Sin "backend" ob (dict_get_In _ _ _ Ab)) as [x [Sx Gx]].
    unfold get. rewrite Gx. f_equal.
    unfold stored in Sx. destruct (in_None_default ob); [|congruence].
    assert (Ob : dict_get "backend" (orig_options st0) = Some ob).
    { rewrite (resolved_items_orig _ _ _ _ _ _ _ _ _ Hoi Hob R).
      destruct (requested key value kwargs) as [d0|]; [exact Hob|].
      subst d. rewrite Hoi in Hi. injection Hi as <-.
      assert (X : oi = i') by (destruct (in_None_default oi); congruence).
      rewrite dict_get_expand_backend, X, T. reflexivity. }
    congruence.
  - destruct (B T) as (Bs & Bb & Bc).
    split; [now apply Lit|]. split; [now apply Lit|].
    intros Nc. unfold get. rewrite Sf; [reflexivity|].
    apply dict_get_None. now rewrite Bc.
Qed.

Lemma set_interactive_witness :
  let w := example_world [] in
  let st := example_options [] in
  let st' := snd (set w None VNone [("interactive", VBool false)] st) in
  get st' "show" = VBool false /\ get st' "backend" = VStr "agg" /\
  get st' "close" = get st "close".
Proof.
  cbv zeta.
  destruct (set_interactive (example_world []) None VNone
              [("interactive", VBool false)] (example_options [])
              (example_options []) (Fresh [("interactive", VBool false)])
              [("interactive", VBool false)] (VBool false) (VBool false))
    as (items & st0 & _ & _ & _ & H).
  - apply example_options_wf. reflexivity.
  - repeat constructor; simpl; intuition discriminate.
  - reflexivity.
  - reflexivity.
  - reflexivity.
  - reflexivity.
  - destruct (H _ eq_refl) as [_ F].
    destruct (F eq_refl) as (Hs & Hb & Hc).
    split; [exact Hs|]. split; [exact Hb|]. apply Hc. reflexivity.
Defined.

(** ** C7 *)

(** C7. Let [items] be the pairs a call resolved.  If a key of
    [numba_keys] is among them and the call returns, [reload_numba] ran
    exactly once, and as the last outside call: the log reads
    [ReloadNumba], then the calls of the loop (no reload among them), then
    the log before the call.  If the loop raised, or if no key of
    [numba_keys] is among the pairs, the call made no reload.  A call with
    keyword overrides only, none of them a Matplotlib key or
    [interactive], always returns (this covers [set(precision=64)], also
    with other keys of [numba_keys], and [set(show=True)]). *)
Theorem set_reloads_once (w : World) (key : option string) (value : PyVal)
    (kwargs : dict) (st st0 : Options) (items : dict) :
  resolved_items w key value kwargs st = (Ok items, st0) ->
  (existsb is_numba items = true ->
   forall st', set w key value kwargs st = (Ok tt, st') ->
   exists evs, log st' = ReloadNumba :: evs ++ log st /\ ~ In ReloadNumba evs) /\
  (forall e st', set w key value kwargs st = (Raise e, st') -> quiet st st') /\
  (existsb is_numba items = false ->
   forall r st', set w key value kwargs st = (r, st') -> quiet st st') /\
  (wf st -> key = None ->
   (forall k v, In (k, v) kwargs ->
      In k option_names /\ mem k matplotlib_keys = false /\
      k <> "interactive") ->
   exists st', set w key value kwargs st = (Ok tt, st')).
Proof.
  intros R.
  pose proof (resolved_items_frame _ _ _ _ _ _ _ R) as (_ & _ & Q0 & _).
  assert (S : forall r st', set w key value kwargs st = (r, st') ->
            exists r1 st1, reset_options w items false st0 = (r1, st1) /\
              quiet st0 st1 /\
              match r1 with
              | Ok rr => r = Ok tt /\ rr = existsb is_numba items /\
                         (if rr then log st' = ReloadNumba :: log st1
                          else st' = st1)
              | Raise e => r = Raise e /\ st' = st1
              end).
  { intros r st'. rewrite set_split. unfold bind. rewrite R.
    destruct (reset_options w items false st0) as [[rr|e] st1] eqn:L;
      pose proof (reset_options_inv _ _ _ _ _ _ L) as (_ & _ & Q1 & _ & _ & Lc).
    - destruct (Lc _ eq_refl) as [Err _]. simpl in Err.
      destruct rr; unfold reload_numba, emit, ret; intros [= <- <-];
        exists (Ok (existsb is_numba items)), st1; rewrite <- Err; auto.
    - intros [= <- <-]. exists (Raise e), st1. auto. }
  split; [|split; [|split]].
  - intros Hn st' H. destruct (S _ _ H) as (r1 & st1 & _ & Q1 & M).
    destruct r1 as [rr|e]; [|destruct M; discriminate].
    destruct M as (_ & -> & M). rewrite Hn in M.
    destruct (quiet_trans _ _ _ Q0 Q1) as [evs [E N]].
    exists evs. rewrite M, E. auto.
  - intros e st' H. destruct (S _ _ H) as (r1 & st1 & _ & Q1 & M).
    destruct r1 as [rr|e1]; [destruct M; discriminate|].
    destruct M as [_ ->]. exact (quiet_trans _ _ _ Q0 Q1).
  - intros Hn r st' H. destruct (S _ _ H) as (r1 & st1 & _ & Q1 & M).
    destruct r1 as [rr|e1].
    + destruct M as (_ & -> & M). rewrite Hn in M. subst st'.
      exact (quiet_trans _ _ _ Q0 Q1).
    + destruct M as [_ ->]. exact (quiet_trans _ _ _ Q0 Q1).
  - intros W -> H.
    destruct (wf_orig_get st "interactive" W) as [oi Hoi];
      [apply mem_In; reflexivity|].
    destruct (wf_orig_get st "backend" W) as [ob Hob];
      [apply mem_In; reflexivity|].
    assert (Ni : dict_get "interactive" kwargs = None).
    { apply dict_get_None. intros I. apply in_map_iff in I.
      destruct I as [[k v] [E I]]. simpl in E. subst k.
      destruct (H _ _ I) as (_ & _ & N). now apply N. }
    destruct (resolved_items_total w None value kwargs st oi ob Hoi Hob)
      as [st0' R'].
    rewrite R in R'. injection R' as -> _.
    pose proof (resolved_items_orig _ _ _ _ _ _ _ _ _ Hoi Hob R) as Ho.
    simpl in Ho. unfold resolved_dict in R. simpl in R. rewrite Ni in R.
    apply (set_returns w None value kwargs st kwargs st0 W R).
    intros k v I. destruct (H k v I) as (Ik & Mk & _). split; [exact Ik|].
    rewrite Ho. unfold stored. destruct (in_None_default v).
    + destruct (wf_orig_get st k W Ik) as [x Hx]. exists x.
      split; [exact Hx | congruence].
    + exists v. split; [reflexivity | congruence].
Qed.

Lemma set_reloads_once_witness :
  let w := example_world [] in
  let st := example_options [] in
  let kwargs := [("precision", VInt 64); ("numba_cache", VBool false)] in
  fst (set w None VNone kwargs st) = Ok tt /\
  exists evs, log (snd (set w None VNone kwargs st))
                = ReloadNumba :: evs ++ log st /\
              ~ In ReloadNumba evs.
Proof.
  cbv zeta. split; [reflexivity|].
  destruct (set_reloads_once (example_world []) None VNone
              [("precision", VInt 64); ("numba_cache", VBool false)]
              (example_options []) (example_options [])
              [("precision", VInt 64); ("numba_cache", VBool false)]
              eq_refl) as [H _].
  apply H; reflexivity.
Defined.

(** ** C8 *)

(** C8. For a key that holds ['jupyter'] in any case: with no keyword
    overrides the call returns and [dpi], [show], [close] read [100],
    [False], [True]; with [dpi=300] passed as well it returns and [dpi]
    reads [300], [show] and [close] as before; in general every keyword
    override is in the resolved dictionary with the caller's value, the
    preset filling in the rest.  The optional notebook format call never
    raises, whether or not [matplotlib_inline] is usable. *)
Theorem set_jupyter (w : World) (st : Options) (key : string) (value : PyVal) :
  wf st ->
  str_in "jupyter" (lower key) = true ->
  (exists st', set w (Some key) value [] st = (Ok tt, st') /\
     get st' "dpi" = VInt 100 /\ get st' "show" = VBool false /\
     get st' "close" = VBool true) /\
  (exists st', set w (Some key) value [("dpi", VInt 300)] st = (Ok tt, st') /\
     get st' "dpi" = VInt 300 /\ get st' "show" = VBool false /\
     get st' "close" = VBool true) /\
  (forall kwargs, NoDup (keys kwargs) ->
   exists d st1,
     resolve_overrides w (Some key) value kwargs st = (Ok (Fresh d), st1) /\
     forall k, dict_get k d =
               match dict_get k kwargs with
               | Some v => Some v
               | None => dict_get k jupyter_kwargs
               end) /\
  fst (jupyter_formats w st) = Ok tt.
Proof.
  intros W J. pose proof (jupyter_not_default key J) as ND.
  destruct (wf_orig_get st "interactive" W) as [oi Hoi];
    [apply mem_In; reflexivity|].
  destruct (wf_orig_get st "backend" W) as [ob Hob];
    [apply mem_In; reflexivity|].
  assert (Go : forall kwargs dpi,
            mergedicts jupyter_kwargs kwargs
              = [("dpi", VInt dpi); ("show", VBool false);
                 ("close", VBool true)] ->
            exists st',
              set w (Some key) value kwargs st = (Ok tt, st') /\
              get st' "dpi" = VInt dpi /\ get st' "show" = VBool false /\
              get st' "close" = VBool true).
  { intros kwargs dpi M.
    destruct (resolved_items_total w (Some key) value kwargs st oi ob Hoi Hob)
      as [st0 R].
    unfold requested in R. rewrite ND, J, M in R.
    change (resolved_dict _ _ _ _)
      with [("dpi", VInt dpi); ("show", VBool false); ("close", VBool true)]
      in R.
    destruct (set_plain_values _ _ _ _ _ _ _ W R) as [st' [S G]].
    - repeat constructor; simpl; intuition discriminate.
    - intros k v I. simpl in I.
      destruct I as [[= <- <-]|[[= <- <-]|[[= <- <-]|[]]]];
        (split; [apply mem_In; reflexivity|]);
        (split; [reflexivity|]); intros; try discriminate.
      apply mpl_accepts_rc. now left.
    - exists st'. split; [exact S|]. repeat split; apply G; simpl; auto. }
  split; [exact (Go [] 100%Z eq_refl)|].
  split; [exact (Go [("dpi", VInt 300)] 300%Z eq_refl)|]. split.
  - intros kwargs Nk.
    destruct (resolve_overrides_spec w (Some key) value kwargs st)
      as (st1 & E & _).
    unfold requested in E. rewrite ND, J in E.
    exists (mergedicts jupyter_kwargs kwargs), st1. split; [exact E|].
    intros k. apply dict_get_mergedicts; [|assumption].
    repeat constructor; simpl; intuition discriminate.
  - destruct (jupyter_formats_frame w st) as (st1 & E & _). now rewrite E.
Qed.

Lemma set_jupyter_witness :
  let w := example_world [] in
  let st := example_options [] in
  exists st', set w (Some "Jupyter") VNone [("dpi", VInt 300)] st = (Ok tt, st') /\
    get st' "dpi" = VInt 300 /\ get st' "show" = VBool false /\
    get st' "close" = VBool true.
Proof.
  cbv zeta.
  apply (set_jupyter (example_world []) (example_options []) "Jupyter" VNone).
  - apply example_options_wf. reflexivity.
  - reflexivity.
Defined.

(** ** C9 *)

(** C9, as stated, fails: ["jupyter"] and ["defaults"] are not option
    names, yet [set('jupyter', 1)] raises nothing and changes [show], and
    [set('defaults', 1)] raises nothing either. *)
Lemma set_unknown_key_counterexample :
  let w := example_world [] in
  let st := example_options [] in
  wf st /\ ~ In "jupyter" option_names /\ ~ In "defaults" option_names /\
  fst (set w (Some "jupyter") (VInt 1) [] st) = Ok tt /\
  get st "show" = VInt 1 /\
  get (snd (set w (Some "jupyter") (VInt 1) [] st)) "show" = VBool false /\
  fst (set w (Some "defaults") (VInt 1) [] st) = Ok tt.
Proof.
  cbv zeta. split; [apply example_options_wf; reflexivity|].
  split; [apply mem_not_In; reflexivity|].
  split; [apply mem_not_In; reflexivity|].
  repeat split; vm_compute; reflexivity.
Qed.

(** C9, amended. For a key [k] that is neither an option name nor one of
    the special keys (['default'], ['defaults'], a string holding
    ['jupyter']), [set(k, v)] raises [KeyNotFoundError] with the list of all
    option names and leaves the object exactly as it was. *)
Theorem set_unknown_key (w : World) (st : Options) (k : string) (v : PyVal) :
  wf st ->
  ~ In k option_names ->
  mem k ["default"; "defaults"] = false ->
  str_in "jupyter" (lower k) = false ->
  set w (Some k) v [] st = (Raise (KeyNotFoundError k option_names), st).
Proof.
  intros W NI ND NJ.
  assert (Ni : ("interactive" =? k) = false).
  { apply String.eqb_neq. intros <-. apply NI, mem_In. reflexivity. }
  unfold set, bind.
  rewrite resolve_overrides_plain by (right; exact NJ).
  unfold requested. rewrite ND, NJ.
  change (mergedicts [] [(k, v)]) with [(k, v)].
  rewrite (handle_interactivity_absent _ _ [(k, v)]);
    [|reflexivity|unfold dict_get; now rewrite Ni].
  simpl. unfold bind. rewrite reset_option_unfold.
  rewrite (wf_has _ _ W). apply mem_not_In in NI. rewrite NI. simpl.
  destruct W as [_ ->]. reflexivity.
Qed.

Lemma set_unknown_key_witness :
  set (example_world []) (Some "unknown_key") (VInt 1) [] (example_options [])
  = (Raise (KeyNotFoundError "unknown_key" option_names), example_options []).
Proof.
  apply set_unknown_key.
  - apply example_options_wf. reflexivity.
  - apply mem_not_In. reflexivity.
  - reflexivity.
  - reflexivity.
Defined.

(** ** C10 *)

(** C10. [set(None, v)] without keyword overrides does nothing at all: the
    value [v] is dropped, the whole object (live values, defaults, log of
    outside calls) is the one before the call, so neither the reload nor a
    Matplotlib update ran. *)
Theorem set_None_is_noop (w : World) (v : PyVal) (st : Options) :
  set w None v [] st = (Ok tt, st).
Proof.
  unfold set, bind.
  (* [key] is [None]: no branch of the first block applies *)
  change (resolve_overrides w None v [] st) with (Ok (Fresh []), st).
  cbv beta iota.
  (* the empty [kwargs] holds no [interactive] *)
  rewrite (handle_interactivity_absent (Fresh []) st [] eq_refl eq_refl).
  (* the loop has nothing to walk and asks for no reload *)
  reflexivity.
Qed.

(** * Further properties of the module *)

(** ** Construction *)

(** What a construction that returned has computed: each conversion went
    through, and the three mappings were filled from the results. *)
Lemma new_Options_inv w st :
  new_Options w = (Ok tt, st) ->
  exists verbose show close dpi font_size precision numba_cache,
    fst (py_float w (getenv_or w "COVASIM_VERBOSE" (VFloat float_0_1)) blank)
      = Ok verbose /\
    fst (py_int w (getenv_or w "COVASIM_SHOW" (VBool true)) blank) = Ok show /\
    fst (py_int w (getenv_or w "COVASIM_CLOSE" (VBool false)) blank) = Ok close /\
    fst (py_int w (getenv_or w "COVASIM_DPI" (rc_figure_dpi w)) blank) = Ok dpi /\
    fst (py_int w (getenv_or w "COVASIM_FONT_SIZE" (rc_font_size w)) blank)
      = Ok font_size /\
    fst (py_int w (getenv_or w "COVASIM_PRECISION" (VInt 32)) blank)
      = Ok precision /\
    fst (py_int w (getenv_or w "COVASIM_NUMBA_CACHE" (VInt 1)) blank)
      = Ok numba_cache /\
    options st =
      [ ("verbose", verbose);
        ("sep", getenv_or w "COVASIM_SEP" (VStr ","));
        ("show", VInt show); ("close", VInt close);
        ("backend", getenv_or w "COVASIM_BACKEND" (VStr (pl_get_backend w)));
        ("interactive", getenv_or w "COVASIM_INTERACTIVE" (VBool true));
        ("style", getenv_or w "COVASIM_STYLE" (VStr "covasim"));
        ("rc", VDict rc_covasim); ("rc_simple", VDict rc_simple);
        ("dpi", VInt dpi); ("font_size", VInt font_size);
        ("font_family", getenv_or w "COVASIM_FONT_FAMILY" (VStr "Rosario"));
        ("precision", VInt precision);
        ("numba_parallel", getenv_or w "COVASIM_NUMBA_PARALLEL" (VStr "none"));
        ("numba_cache", VBool (negb (numba_cache =? 0)%Z)) ] /\
    orig_options st = options st /\
    map fst (optdesc st) = option_names /\
    log st = [FontsAdd].
Proof.
  unfold new_Options, __init__, _set_default_options, capture_orig_options,
    load_custom_fonts, emit, bind.
  repeat match goal with
         | |- context [py_float w ?v ?s] =>
             let H := fresh in let E := fresh "E" in
             pose proof (py_float_state w v s) as H;
             destruct (py_float w v s) as [[?|?] ?] eqn:E; simpl in H; subst;
             [|discriminate]
         | |- context [py_int w ?v ?s] =>
             let H := fresh in let E := fresh "E" in
             pose proof (py_int_state w v s) as H;
             destruct (py_int w v s) as [[?|?] ?] eqn:E; simpl in H; subst;
             [|discriminate]
         end.
  intros [= <-]. do 7 eexists.
  repeat match goal with
         | H : ?c = (Ok _, blank) |- _ /\ _ =>
             split; [rewrite H; reflexivity|]; clear H
         end.
  repeat split.
Qed.

(** A construction that raised has assigned nothing. *)
Lemma new_Options_raise_blank w e st :
  new_Options w = (Raise e, st) -> st = blank.
Proof.
  unfold new_Options, __init__, _set_default_options, capture_orig_options,
    load_custom_fonts, emit, bind.
  repeat match goal with
         | |- context [py_float w ?v ?s] =>
             let H := fresh in
             pose proof (py_float_state w v s) as H;
             destruct (py_float w v s) as [[?|?] ?]; simpl in H; subst;
             [|now intros [= _ <-]]
         | |- context [py_int w ?v ?s] =>
             let H := fresh in
             pose proof (py_int_state w v s) as H;
             destruct (py_int w v s) as [[?|?] ?]; simpl in H; subst;
             [|now intros [= _ <-]]
         end.
  discriminate.
Qed.

Ltac option_key_cases H :=
  repeat (destruct H as [<-|H]); [..|contradiction H].

(** Replaces [help_variable k], for a literal [k], by its value in [G]. *)
Ltac variable_name G :=
  match type of G with
  | context [help_variable ?k] =>
      let v := eval vm_compute in (help_variable k) in
      change (help_variable k) with v in G
  end.

(** X1. A construction that returns leaves the three mappings with exactly
    the fifteen option names, defaults equal to the live values, and font
    loading as its only outside call. *)
Theorem new_Options_established (w : World) (st : Options) :
  new_Options w = (Ok tt, st) ->
  wf3 st /\ orig_options st = options st /\ log st = [FontsAdd] /\
  __len__ st = (Ok 15%nat, st).
Proof.
  intros H. destruct (new_Options_inv w st H)
    as (v & sh & cl & dp & fs & pr & nc & _ & _ & _ & _ & _ & _ & _ &
        Ho & Hd & Hp & Hl).
  assert (K : keys (options st) = option_names) by (rewrite Ho; reflexivity).
  repeat split; try assumption.
  - now rewrite Hd.
  - unfold __len__. rewrite Ho. reflexivity.
Qed.

Lemma new_Options_established_witness :
  wf3 (example_options []) /\
  orig_options (example_options []) = options (example_options []) /\
  log (example_options []) = [FontsAdd] /\
  __len__ (example_options []) = (Ok 15%nat, example_options []).
Proof.
  apply (new_Options_established (example_world [])). reflexivity.
Defined.

(** X2. The environment variable that [get_help] reports for an option is
    the one the constructor reads for it: a variable that is set seeds the
    live value and the default.  String-typed options take the text as it
    is, integer-typed ones what [int] makes of it, [numba_cache] whether
    that integer is non-zero, [verbose] what [float] makes of it. *)
Theorem new_Options_seeded (w : World) (st : Options) (k s : string) :
  new_Options w = (Ok tt, st) ->
  getenv w (help_variable k) = Some s ->
  (In k ["sep"; "backend"; "interactive"; "style"; "font_family";
         "numba_parallel"] ->
   get st k = VStr s /\ dict_get k (orig_options st) = Some (VStr s)) /\
  (In k ["show"; "close"; "dpi"; "font_size"; "precision"] ->
   exists z, int_of_str w s = Some z /\ get st k = VInt z /\
             dict_get k (orig_options st) = Some (VInt z)) /\
  (k = "numba_cache" ->
   exists z, int_of_str w s = Some z /\
             get st k = VBool (negb (z =? 0)%Z) /\
             dict_get k (orig_options st) = Some (VBool (negb (z =? 0)%Z))) /\
  (k = "verbose" ->
   exists f, float_of_str w s = Some f /\ get st k = VFloat f /\
             dict_get k (orig_options st) = Some (VFloat f)).
Proof.
  intros H G. destruct (new_Options_inv w st H)
    as (v & sh & cl & dp & fs & pr & nc & Ev & Esh & Ecl & Edp & Efs & Epr &
        Enc & Ho & Hd & _ & _).
  unfold get. rewrite Hd, Ho. unfold getenv_or in *.
  split; [|split; [|split]].
  - intros Hk. option_key_cases Hk; variable_name G;
      rewrite G; simpl; auto.
  - intros Hk. option_key_cases Hk; variable_name G;
      rewrite G in *; unfold py_int, ret, raise in *;
      destruct (int_of_str w s) as [z|]; simpl in *; try discriminate;
      exists z.
    + injection Esh as <-. auto.
    + injection Ecl as <-. auto.
    + injection Edp as <-. auto.
    + injection Efs as <-. auto.
    + injection Epr as <-. auto.
  - intros ->. variable_name G.
    rewrite G in *. unfold py_int, ret, raise in Enc.
    destruct (int_of_str w s) as [z|]; simpl in *; try discriminate.
    exists z. injection Enc as <-. auto.
  - intros ->. variable_name G.
    rewrite G in *. unfold py_float, ret, raise in Ev.
    destruct (float_of_str w s) as [f|]; simpl in *; try discriminate.
    exists f. injection Ev as <-. auto.
Qed.

Lemma new_Options_seeded_witness :
  let st := example_options [("COVASIM_DPI", "150")] in
  exists z, int_of_str (example_world [("COVASIM_DPI", "150")]) "150" = Some z /\
            get st "dpi" = VInt z /\
            dict_get "dpi" (orig_options st) = Some (VInt z).
Proof.
  cbv zeta.
  destruct (new_Options_seeded (example_world [("COVASIM_DPI", "150")])
              (example_options [("COVASIM_DPI", "150")]) "dpi" "150"
              eq_refl eq_refl) as (_ & H & _).
  apply H. simpl. tauto.
Defined.

(** X3. There is no fallback for a malformed number: if the variable of an
    integer-typed option is set to text that [int] rejects, the
    constructor raises and the object is left without any option. *)
Theorem new_Options_bad_integer (w : World) (k s : string) :
  In k ["show"; "close"; "dpi"; "font_size"; "precision"; "numba_cache"] ->
  getenv w (help_variable k) = Some s ->
  int_of_str w s = None ->
  exists e, new_Options w = (Raise e, blank).
Proof.
  intros Hk G N. destruct (new_Options w) as [[[]|e] st] eqn:E.
  - exfalso. destruct (new_Options_inv w st E)
      as (v & sh & cl & dp & fs & pr & nc & _ & Esh & Ecl & Edp & Efs & Epr &
          Enc & _).
    unfold getenv_or in *.
    option_key_cases Hk; variable_name G;
      rewrite G in *; unfold py_int, raise in *; rewrite N in *;
      discriminate.
  - exists e. now rewrite (new_Options_raise_blank w e st E).
Qed.

Lemma new_Options_bad_integer_witness :
  exists e, new_Options (example_world [("COVASIM_PRECISION", "double")])
            = (Raise e, blank).
Proof.
  apply (new_Options_bad_integer
           (example_world [("COVASIM_PRECISION", "double")])
           "precision" "double").
  - simpl. tauto.
  - reflexivity.
  - reflexivity.
Defined.

(** Under [H], which lets [g] and [getenv w] agree on the variable of every
    option, reads of the variable of [k] through [g] become reads through
    [getenv w]. *)
Ltac seed_from w g H k :=
  let v := eval vm_compute in (help_variable k) in
  let Hk := fresh in
  assert (Hk : forall d, getenv_or (with_getenv w g) v d = getenv_or w v d)
    by (intros d;
        exact (f_equal (fun o => match o with Some s => VStr s | None => d end)
                 (H k (proj1 (mem_In k option_names) eq_refl) eq_refl)));
  rewrite !Hk; clear Hk.

(** X4. The constructor reads the process environment through no other
    variable than those [get_help] reports for the options that are not
    [rc] records: two environments that agree on them build the same
    object. *)
Theorem new_Options_reads_reported_variables (w : World)
    (g : string -> option string) :
  (forall k, In k option_names -> String.prefix "rc" k = false ->
     g (help_variable k) = getenv w (help_variable k)) ->
  new_Options (with_getenv w g) = new_Options w.
Proof.
  intros H.
  unfold new_Options, __init__, _set_default_options.
  seed_from w g H "verbose". seed_from w g H "sep". seed_from w g H "show".
  seed_from w g H "close". seed_from w g H "backend".
  seed_from w g H "interactive". seed_from w g H "style".
  seed_from w g H "dpi". seed_from w g H "font_size".
  seed_from w g H "font_family". seed_from w g H "precision".
  seed_from w g H "numba_parallel". seed_from w g H "numba_cache".
  assert (PI : forall v, py_int (with_getenv w g) v = py_int w v)
    by (intros [| | |[| |]| | |]; reflexivity).
  assert (PF : forall v, py_float (with_getenv w g) v = py_float w v)
    by (intros []; reflexivity).
  rewrite !PI, !PF.
  change (rc_figure_dpi (with_getenv w g)) with (rc_figure_dpi w).
  change (rc_font_size (with_getenv w g)) with (rc_font_size w).
  change (pl_get_backend (with_getenv w g)) with (pl_get_backend w).
  reflexivity.
Qed.

Lemma new_Options_reads_reported_variables_witness :
  new_Options (with_getenv (example_world [])
                 (env_lookup [("HOME", "/root"); ("SPHINX_BUILD", "1")]))
  = new_Options (example_world []).
Proof.
  apply new_Options_reads_reported_variables.
  intros k I _. option_key_cases I; reflexivity.
Defined.

(** X5. [COVASIM_INTERACTIVE] is kept as text, so every non-empty setting,
    ["0"] and ["False"] included, makes the default of [interactive]
    truthy: an override [interactive=None] or [interactive='default']
    then resolves to [show=True], [close=False] and the default backend,
    and a call that returns has stored [show=True] and [close=False]. *)
Theorem interactive_variable_is_text (w : World) (st : Options) (s : string)
    (v : PyVal) :
  new_Options w = (Ok tt, st) ->
  getenv w "COVASIM_INTERACTIVE" = Some s -> s <> "" ->
  in_None_default v = true ->
  dict_get "interactive" (orig_options st) = Some (VStr s) /\
  truthy (VStr s) = true /\
  exists items st0,
    resolved_items w None VNone [("interactive", v)] st = (Ok items, st0) /\
    dict_get "show" items = Some (VBool true) /\
    dict_get "close" items = Some (VBool false) /\
    dict_get "backend" items = dict_get "backend" (orig_options st) /\
    forall st', set w None VNone [("interactive", v)] st = (Ok tt, st') ->
      get st' "show" = VBool true /\ get st' "close" = VBool false.
Proof.
  intros H G Ns Hv.
  destruct (new_Options_inv w st H)
    as (v0 & sh & cl & dp & fs & pr & nc & _ & _ & _ & _ & _ & _ & _ &
        Ho & Hd & _ & _).
  assert (W : wf st).
  { split; [|rewrite Hd]; rewrite Ho; reflexivity. }
  assert (Hi : dict_get "interactive" (orig_options st) = Some (VStr s)).
  { rewrite Hd, Ho. unfold getenv_or. rewrite G. reflexivity. }
  assert (T : truthy (VStr s) = true).
  { simpl. apply String.eqb_neq in Ns. now rewrite Ns. }
  split; [exact Hi|]. split; [exact T|].
  destruct (wf_orig_get st "backend" W) as [ob Hob];
    [apply mem_In; reflexivity|].
  destruct (resolved_items_total w None VNone [("interactive", v)] st
              (VStr s) ob Hi Hob) as [st0 R].
  assert (E : resolved_dict (orig_options st)
                (requested None VNone [("interactive", v)]) (VStr s) ob
              = expand ob (VStr s) [("interactive", v)]).
  { unfold resolved_dict, requested. simpl. now rewrite Hv. }
  rewrite E in R.
  exists (expand ob (VStr s) [("interactive", v)]), st0.
  split; [exact R|].
  rewrite dict_get_expand_show, dict_get_expand_close,
    dict_get_expand_backend, T, Hob.
  split; [reflexivity|]. split; [reflexivity|]. split; [reflexivity|].
  intros st' S.
  assert (ND : NoDup (keys (expand ob (VStr s) [("interactive", v)]))).
  { apply NoDup_expand. repeat constructor. simpl. tauto. }
  destruct (set_Ok_inv _ _ _ _ _ _ _ _ R S) as (Sin & _).
  specialize (Sin ND). split.
  - destruct (Sin "show" (VBool true)) as [x [Sx Gx]].
    + apply dict_get_In. now rewrite dict_get_expand_show, T.
    + unfold get. rewrite Gx. unfold stored in Sx. simpl in Sx. congruence.
  - destruct (Sin "close" (VBool false)) as [x [Sx Gx]].
    + apply dict_get_In. now rewrite dict_get_expand_close, T.
    + unfold get. rewrite Gx. unfold stored in Sx. simpl in Sx. congruence.
Qed.

Lemma interactive_variable_is_text_witness :
  let env := [("COVASIM_INTERACTIVE", "0")] in
  dict_get "interactive" (orig_options (example_options env)) = Some (VStr "0") /\
  truthy (VStr "0") = true /\
  get (snd (set (example_world env) None VNone [("interactive", VNone)]
              (example_options env))) "show" = VBool true.
Proof.
  cbv zeta.
  destruct (interactive_variable_is_text
              (example_world [("COVASIM_INTERACTIVE", "0")])
              (example_options [("COVASIM_INTERACTIVE", "0")]) "0" VNone)
    as (A & B & items & st0 & _ & _ & _ & _ & C); try reflexivity.
  - discriminate.
  - split; [exact A|]. split; [exact B|].
    exact (proj1 (C _ eq_refl)).
Defined.

(** ** [get_help] *)

Lemma find_key_In {A} (k : string) (l : list (string * A)) :
  In k (map fst l) ->
  exists kd, find (fun kd => k =? fst kd) l = Some kd /\ In kd l /\ fst kd = k.
Proof.
  induction l as [|[k' d] l IH]; simpl; [contradiction|].
  destruct (String.eqb_spec k k') as [->|N].
  - intros _. exists (k', d). auto.
  - intros [E|I]; [congruence|].
    destruct (IH I) as (kd & F & Il & Ek). exists kd. auto.
Qed.

Lemma get_help_entries_spec st ks :
  (forall k, In k ks ->
     In k (keys (options st)) /\ In k (keys (orig_options st)) /\
     In k (map fst (optdesc st))) ->
  exists optdict,
    get_help_entries ks st = (Ok optdict, st) /\
    map fst optdict = ks /\
    forall k e, In (k, e) optdict ->
      entry_key e = k /\
      dict_get k (options st) = Some (entry_current e) /\
      dict_get k (orig_options st) = Some (entry_default e) /\
      entry_variable e = help_variable k /\
      In (k, entry_desc e) (optdesc st).
Proof.
  induction ks as [|k ks IH]; intros H.
  - exists []. split; [reflexivity|]. split; [reflexivity|]. intros ? ? [].
  - destruct (IH (fun k' I => H k' (or_intror I))) as (optdict & E & K & P).
    destruct (H k (or_introl eq_refl)) as (Ho & Hd & Hp).
    destruct (In_keys_get _ _ Ho) as [cur Gc].
    destruct (In_keys_get _ _ Hd) as [def Gd].
    destruct (find_key_In _ _ Hp) as ([k' d] & F & Id & Ek). simpl in Ek. subst k'.
    eexists. split; [|split].
    + simpl. unfold bind, __getitem__, orig_getitem, optdesc_getitem, ret.
      rewrite Gc, Gd, F, E. reflexivity.
    + simpl. now rewrite K.
    + intros k0 e [[= <- <-]|I]; [simpl; auto | now apply P].
Qed.

(** X6. On an object whose three mappings hold the option names,
    [get_help] builds one entry per option, in the order of the names,
    without changing anything: the entry of [k] carries [k], the live
    value, the default, the variable name and the help text of [k]. *)
Theorem get_help_optdict_entries (st : Options) :
  wf3 st ->
  exists optdict,
    get_help_optdict st = (Ok optdict, st) /\
    map fst optdict = option_names /\
    forall k e, In (k, e) optdict ->
      entry_key e = k /\
      entry_current e = get st k /\
      dict_get k (orig_options st) = Some (entry_default e) /\
      entry_variable e = help_variable k /\
      In (k, entry_desc e) (optdesc st).
Proof.
  intros [[W1 W2] W3]. unfold get_help_optdict.
  destruct (get_help_entries_spec st (keys (orig_options st)))
    as (optdict & E & K & P).
  { intros k I. rewrite W1, W3, <- W2. auto. }
  exists optdict. split; [exact E|]. split; [now rewrite K|].
  intros k e I. destruct (P k e I) as (A & B & C & D & F).
  unfold get. rewrite B. auto.
Qed.

Lemma get_help_optdict_entries_witness :
  exists optdict,
    get_help_optdict (example_options []) = (Ok optdict, example_options []) /\
    map fst optdict = option_names.
Proof.
  destruct (get_help_optdict_entries (example_options [])) as (o & E & K & _).
  - split; [apply example_options_wf|]; reflexivity.
  - exists o. auto.
Defined.

(** ** [handle_show] *)

(** X7. Called with a value, [handle_show] changes nothing in the object
    and calls [pl.show()] exactly when the value it returns is truthy: on
    the backend ['agg'] it returns [False] whatever was asked, on any other
    backend it returns the value it was given. *)
Theorem handle_show_given (w : World) (do_show : PyVal) (st : Options) :
  do_show <> VNone ->
  exists r shown,
    handle_show w do_show st = (Ok (r, shown), st) /\
    shown = truthy r /\
    r = (if pl_get_backend w =? "agg" then VBool false else do_show).
Proof.
  intros N. unfold handle_show, bind, ret.
  destruct do_show; try contradiction;
    (destruct (pl_get_backend w =? "agg");
     [exists (VBool false), false; auto|]);
    match goal with
    | |- context [truthy ?v] =>
        exists v, (truthy v); destruct (truthy v); auto
    end.
Qed.

Lemma handle_show_given_witness :
  exists r shown,
    handle_show (example_world []) (VBool true) (example_options [])
      = (Ok (r, shown), example_options []) /\
    shown = truthy r /\
    r = (if pl_get_backend (example_world []) =? "agg"
         then VBool false else VBool true).
Proof. apply handle_show_given. discriminate. Defined.


(** ** [set_matplotlib_global] *)

(** X9. [set_matplotlib_global] rejects a key that is not one of
    [matplotlib_keys] only when the value is truthy: it then raises
    [KeyNotFoundError] without any outside call; with a falsy value it
    returns silently. *)
Theorem set_matplotlib_global_other_key (w : World) (key : string)
    (value : PyVal) (fonts : option (list string)) (st : Options) :
  ~ In key matplotlib_keys ->
  set_matplotlib_global w key value fonts st =
  if truthy value then (Raise (KeyNotFoundError key []), st) else (Ok tt, st).
Proof.
  intros N. unfold set_matplotlib_global.
  destruct (truthy value); [|reflexivity].
  assert (E : forall k, In k matplotlib_keys -> (key =? k) = false).
  { intros k I. apply String.eqb_neq. intros ->. contradiction. }
  rewrite !E by (apply mem_In; reflexivity). reflexivity.
Qed.

Lemma set_matplotlib_global_other_key_witness :
  set_matplotlib_global (example_world []) "precision" (VInt 64) None
    (example_options [])
  = (Raise (KeyNotFoundError "precision" []), example_options []).
Proof.
  apply (set_matplotlib_global_other_key (example_world []) "precision"
           (VInt 64) None (example_options [])).
  apply mem_not_In. reflexivity.
Defined.



(** ** [set] with one pair *)

Lemma option_name_not_special (k : string) :
  In k option_names ->
  mem k ["default"; "defaults"] = false /\ str_in "jupyter" (lower k) = false.
Proof. intros H. option_key_cases H; split; reflexivity. Qed.

(** A call [set(k, v)] for an option other than [interactive] is one turn
    of the loop followed by the reload it may ask for. *)
Lemma set_single_eq w st k v :
  In k option_names -> k <> "interactive" ->
  set w (Some k) v [] st =
  (rr <- reset_option w k v false ;;
   if rr then reload_numba else ret tt) st.
Proof.
  intros I N. destruct (option_name_not_special k I) as [Nd Nj].
  unfold set. unfold bind at 1.
  rewrite resolve_overrides_plain by (right; exact Nj).
  unfold requested. rewrite Nd, Nj.
  change (mergedicts [] [(k, v)]) with [(k, v)].
  unfold bind at 1.
  rewrite (handle_interactivity_absent _ _ [(k, v)]); [|reflexivity|].
  - unfold bind, deref. simpl. unfold bind, ret.
    now destruct (reset_option w k v false st) as [[rr|e] st1].
  - unfold dict_get.
    destruct (String.eqb_spec "interactive" k); [congruence | reflexivity].
Qed.

(** The same call, step by step: store, Matplotlib, reload. *)
Lemma set_single_run w st k v x :
  wf st -> In k option_names -> k <> "interactive" ->
  stored (orig_options st) k v = Some x ->
  set w (Some k) v [] st =
  let st1 := snd (setitem k x st) in
  match (if mem k matplotlib_keys
         then set_matplotlib_global w k x None st1
         else (Ok tt, st1)) with
  | (Ok _, st2) =>
      if mem k numba_keys then (Ok tt, snd (reload_numba st2)) else (Ok tt, st2)
  | (Raise e, st2) => (Raise e, st2)
  end.
Proof.
  intros W I N S. rewrite (set_single_eq w st k v I N).
  unfold bind. rewrite reset_option_unfold, (wf_has _ _ W).
  apply mem_In in I. rewrite I, S. simpl.
  destruct (mem k matplotlib_keys).
  - destruct (set_matplotlib_global w k x None _) as [[[]|e] st2];
      [|reflexivity].
    destruct (mem k numba_keys); reflexivity.
  - destruct (mem k numba_keys); reflexivity.
Qed.






(** X13. A falsy value for a render key ([0], [False], the empty string)
    is stored but never reaches Matplotlib: the call returns and the only
    change in the whole object is the stored value. *)
Theorem set_falsy_render_value (w : World) (st : Options) (k : string)
    (v : PyVal) :
  wf st -> In k matplotlib_keys ->
  truthy v = false -> in_None_default v = false ->
  set w (Some k) v [] st = (Ok tt, snd (setitem k v st)).
Proof.
  intros W I T Nv.
  assert (Ik : In k option_names).
  { apply mem_In. option_key_cases I; reflexivity. }
  assert (N : k <> "interactive")
    by (intros ->; apply mem_In in I; discriminate I).
  rewrite (set_single_run w st k v v W Ik N)
    by (unfold stored; now rewrite Nv).
  cbv zeta. apply mem_In in I. rewrite I.
  unfold set_matplotlib_global. rewrite T.
  apply mem_In in I.
  replace (mem k numba_keys) with false
    by (option_key_cases I; reflexivity).
  reflexivity.
Qed.

Lemma set_falsy_render_value_witness :
  set (example_world []) (Some "backend") (VStr "") [] (example_options [])
  = (Ok tt, snd (setitem "backend" (VStr "") (example_options []))).
Proof.
  apply set_falsy_render_value.
  - apply example_options_wf. reflexivity.
  - apply mem_In. reflexivity.
  - reflexivity.
  - reflexivity.
Defined.



(** X15. [set(backend=b)] with a backend Matplotlib cannot switch to
    raises, but only after the loop stored [b]: [get('backend')] then
    names a backend that is not in use.  Nothing else changes. *)
Theorem set_backend_unusable (w : World) (st : Options) (b : PyVal) :
  wf st -> truthy b = true -> in_None_default b = false ->
  backend_usable w b = false ->
  set w (Some "backend") b [] st
    = (Raise (BackendError b), snd (setitem "backend" b st)) /\
  get (snd (setitem "backend" b st)) "backend" = b.
Proof.
  intros W T Nv B. split.
  - rewrite (set_single_run w st _ b b W);
      [|apply mem_In; reflexivity|discriminate|unfold stored; now rewrite Nv].
    cbv zeta. unfold set_matplotlib_global. simpl. rewrite T, B. reflexivity.
  - unfold get. simpl. now rewrite dict_get_set_same.
Qed.

Lemma set_backend_unusable_witness :
  set (example_world []) (Some "backend") (VStr "Qt5Agg") []
    (example_options [])
  = (Raise (BackendError (VStr "Qt5Agg")),
     snd (setitem "backend" (VStr "Qt5Agg") (example_options []))) /\
  get (snd (setitem "backend" (VStr "Qt5Agg") (example_options []))) "backend"
  = VStr "Qt5Agg".
Proof.
  apply set_backend_unusable.
  - apply example_options_wf. reflexivity.
  - reflexivity.
  - reflexivity.
  - reflexivity.
Defined.

(** ** Runs of calls *)

Lemma set_optdesc w key value kwargs st :
  optdesc (snd (set w key value kwargs st)) = optdesc st.
Proof.
  rewrite set_split. unfold bind.
  destruct (resolved_items w key value kwargs st) as [[items|e] st0] eqn:R;
    apply resolved_items_frame in R; destruct R as (_ & Rp & _);
    [|assumption].
  destruct (reset_options w items false st0) as [[rr|e] st1] eqn:L;
    apply reset_options_inv in L; destruct L as (_ & Lp & _).
  - destruct rr; unfold reload_numba, emit, ret; simpl; congruence.
  - simpl. congruence.
Qed.

Lemma not_reset_requested (c : set_call) :
  is_reset c = false ->
  requested (fst (fst c)) (snd (fst c)) (snd c) <> OrigOptions.
Proof.
  destruct c as [[key value] kwargs]. unfold is_reset, requested. simpl.
  destruct key as [k|]; [|discriminate].
  intros ->. destruct (str_in "jupyter" (lower k)); discriminate.
Qed.

(** X16. However many [set] calls are made, and whether they return or
    raise, the defaults stay what they were as long as none of the calls is
    the reset [set('default')] / [set('defaults')]. *)
Theorem set_calls_keep_defaults (w : World) (calls : list set_call)
    (st : Options) :
  forallb (fun c => negb (is_reset c)) calls = true ->
  orig_options (set_calls w calls st) = orig_options st.
Proof.
  revert st. induction calls as [|[[key value] kwargs] calls IH];
    intros st H; simpl in *.
  - reflexivity.
  - apply andb_prop in H. destruct H as [Hc Hr].
    rewrite IH by exact Hr.
    apply set_keeps_orig_options.
    apply (not_reset_requested (key, value, kwargs)).
    now apply negb_true_iff.
Qed.

Lemma set_calls_keep_defaults_witness :
  orig_options
    (set_calls (example_world [])
       [ (None, VNone, [("dpi", VInt 300); ("style", VStr "nope")]);
         (Some "jupyter", VNone, []);
         (None, VNone, [("interactive", VBool false)]) ]
       (example_options []))
  = orig_options (example_options []).
Proof. apply set_calls_keep_defaults. reflexivity. Defined.

(** X17. The three mappings keep exactly the fifteen option names through
    any run of [set] calls, returned or raised, the reset included: [set]
    never adds or removes an option, so [len(options)] stays 15. *)
Theorem set_calls_keep_names (w : World) (calls : list set_call)
    (st : Options) :
  wf3 st ->
  wf3 (set_calls w calls st) /\
  __len__ (set_calls w calls st) = (Ok 15%nat, set_calls w calls st).
Proof.
  revert st. induction calls as [|[[key value] kwargs] calls IH];
    intros st W; simpl.
  - split; [exact W|]. destruct W as [[W1 _] _].
    unfold __len__. f_equal. f_equal.
    rewrite <- (length_map fst). unfold keys in W1. now rewrite W1.
  - apply IH. destruct W as [W Wp]. split.
    + now apply set_wf.
    + now rewrite set_optdesc.
Qed.

Lemma set_calls_keep_names_witness :
  wf3 (set_calls (example_world [])
         [ (Some "defaults", VNone, []);
           (None, VNone, [("colour", VInt 1)]) ]
         (example_options [])).
Proof.
  apply set_calls_keep_names.
  split; [apply example_options_wf|]; reflexivity.
Defined.

(** X18. When the positional pair and a keyword override name the same
    option, the positional pair wins: after [set(k, v, **kwargs)] has
    returned, [get(k)] reads [v] (or the default of [k] when [v] is [None]
    or ['default']), whatever [kwargs[k]] was. *)
Theorem set_positional_pair_wins (w : World) (st st' : Options) (k : string)
    (v : PyVal) (kwargs : dict) :
  wf st -> NoDup (keys kwargs) ->
  In k option_names -> k <> "interactive" ->
  dict_get "interactive" kwargs = None ->
  set w (Some k) v kwargs st = (Ok tt, st') ->
  Some (get st' k) =
  (if in_None_default v then dict_get k (orig_options st) else Some v).
Proof.
  intros W ND I N Ni S.
  destruct (option_name_not_special k I) as [Nd Nj].
  destruct (wf_orig_get st "interactive" W) as [oi Hoi];
    [apply mem_In; reflexivity|].
  destruct (wf_orig_get st "backend" W) as [ob Hob];
    [apply mem_In; reflexivity|].
  destruct (resolved_items_total w (Some k) v kwargs st oi ob Hoi Hob)
    as [st0 R].
  pose proof (resolved_items_orig _ _ _ _ _ _ _ _ _ Hoi Hob R) as Ho.
  pose proof (resolved_items_NoDup _ _ _ _ _ _ _ W ND R) as NI.
  unfold requested in R, Ho, NI. rewrite Nd, Nj in R, Ho, NI.
  assert (Nk : NoDup (keys [(k, v)])) by (repeat constructor; intros []).
  assert (Gi : dict_get "interactive" (mergedicts kwargs [(k, v)]) = None).
  { rewrite dict_get_mergedicts by assumption.
    assert (X : dict_get "interactive" [(k, v)] = None).
    { unfold dict_get.
      destruct (String.eqb_spec "interactive" k); [congruence | reflexivity]. }
    rewrite X. exact Ni. }
  unfold resolved_dict in R, NI. cbv zeta in R, NI. rewrite Gi in R, NI.
  destruct (set_Ok_inv _ _ _ _ _ _ _ _ R S) as (Sin & _ & _).
  destruct (Sin NI k v) as [x [Sx Gx]].
  { apply dict_get_In. rewrite dict_get_mergedicts by assumption.
    unfold dict_get at 1. now rewrite String.eqb_refl. }
  unfold get. rewrite Gx. rewrite Ho in Sx. symmetry. exact Sx.
Qed.

Lemma set_positional_pair_wins_witness :
  Some (get (snd (set (example_world []) (Some "dpi") (VInt 100)
                    [("dpi", VInt 200)] (example_options []))) "dpi")
  = Some (VInt 100).
Proof.
  apply (set_positional_pair_wins (example_world []) (example_options [])
           _ "dpi" (VInt 100) [("dpi", VInt 200)]).
  - apply example_options_wf. reflexivity.
  - repeat constructor. intros [].
  - apply mem_In. reflexivity.
  - discriminate.
  - reflexivity.
  - reflexivity.
Defined.

(** ** The dictionary methods *)

(** X19. Direct assignment bypasses [set]: [options[k] = v] never raises,
    makes no outside call and leaves the defaults alone, and the value
    reads back.  A key added this way passes the validation of [set] but
    has no default, so a later [set(k, 'default')] raises
    [KeyNotFoundError] and changes nothing. *)
Theorem setitem_bypasses_set (w : World) (st : Options) (k : string)
    (v : PyVal) :
  ~ In k (keys (orig_options st)) ->
  k <> "interactive" -> mem k ["default"; "defaults"] = false ->
  str_in "jupyter" (lower k) = false ->
  let st1 := snd (__setitem__ k v st) in
  fst (__setitem__ k v st) = Ok tt /\
  orig_options st1 = orig_options st /\ log st1 = log st /\
  __getitem__ k st1 = (Ok v, st1) /\
  set w (Some k) (VStr "default") [] st1
    = (Raise (KeyNotFoundError k (keys (orig_options st))), st1).
Proof.
  intros NI N Nd Nj. cbv zeta.
  split; [reflexivity|]. split; [reflexivity|]. split; [reflexivity|]. split.
  - unfold __getitem__, __setitem__, setitem. simpl.
    now rewrite dict_get_set_same.
  - unfold set. unfold bind at 1.
    rewrite resolve_overrides_plain by (right; exact Nj).
    unfold requested. rewrite Nd, Nj.
    change (mergedicts [] [(k, VStr "default")]) with [(k, VStr "default")].
    unfold bind at 1.
    rewrite (handle_interactivity_absent _ _ [(k, VStr "default")]);
      [|reflexivity|].
    + unfold bind, deref. simpl. unfold bind.
      rewrite reset_option_unfold. unfold dict_has, stored. simpl.
      rewrite dict_get_set_same. simpl.
      apply dict_get_None in NI. now rewrite NI.
    + unfold dict_get.
      destruct (String.eqb_spec "interactive" k); [congruence | reflexivity].
Qed.

Lemma setitem_bypasses_set_witness :
  set (example_world []) (Some "colour") (VStr "default") []
    (snd (__setitem__ "colour" (VStr "red") (example_options [])))
  = (Raise (KeyNotFoundError "colour"
              (keys (orig_options (example_options [])))),
     snd (__setitem__ "colour" (VStr "red") (example_options []))).
Proof.
  apply (setitem_bypasses_set (example_world []) (example_options [])
           "colour" (VStr "red")).
  - apply mem_not_In. reflexivity.
  - discriminate.
  - reflexivity.
  - reflexivity.
Defined.

(** X20. [update(other)] never raises, makes no outside call and leaves
    the defaults alone; afterwards [options[k]] is the entry of [other] for
    a key of [other], and what it was for any other key. *)
Theorem update_then_getitem (st : Options) (other : dict) (k : string) :
  NoDup (keys other) ->
  let st1 := snd (update other st) in
  fst (update other st) = Ok tt /\
  orig_options st1 = orig_options st /\ log st1 = log st /\
  dict_get k (options st1) =
  match dict_get k other with
  | Some v => Some v
  | None => dict_get k (options st)
  end.
Proof.
  intros ND. cbv zeta. unfold update. simpl.
  repeat split. now apply dict_get_update.
Qed.

Lemma update_then_getitem_witness :
  dict_get "style"
    (options (snd (update [("style", VStr "nope")] (example_options []))))
  = Some (VStr "nope").
Proof.
  apply (update_then_getitem (example_options []) [("style", VStr "nope")]
           "style").
  repeat constructor. intros [].
Defined.

(** X21. Reading an unrecognized key: [get(k)] returns [None] without
    raising, [k in options] is [False], and [options[k]] raises
    [KeyNotFoundError] with the option names; none of them changes the
    object. *)
Theorem unknown_key_reads (st : Options) (k : string) :
  wf st -> ~ In k option_names ->
  get st k = VNone /\
  __contains__ k st = (Ok false, st) /\
  __getitem__ k st = (Raise (KeyNotFoundError k option_names), st).
Proof.
  intros W NI. pose proof W as [W1 _].
  assert (G : dict_get k (options st) = None).
  { apply dict_get_None. now rewrite W1. }
  unfold get, __contains__, contains, __getitem__, dict_has.
  rewrite G, W1. auto.
Qed.

Lemma unknown_key_reads_witness :
  get (example_options []) "colour" = VNone /\
  __contains__ "colour" (example_options []) = (Ok false, example_options []) /\
  __getitem__ "colour" (example_options [])
    = (Raise (KeyNotFoundError "colour" option_names), example_options []).
Proof.
  apply unknown_key_reads.
  - apply example_options_wf. reflexivity.
  - apply mem_not_In. reflexivity.
Defined.

(** X22. [setdefault(k, d)] on a recognized option is a pure read: it
    returns the current value, whatever [d] is, and changes nothing. *)
Theorem setdefault_known_key (st : Options) (k : string) (d : PyVal) :
  wf st -> In k option_names ->
  setdefault k d st = (Ok (get st k), st).
Proof.
  intros W I. destruct (wf_get st k W I) as [v G].
  unfold setdefault, get. now rewrite G.
Qed.

Lemma setdefault_known_key_witness :
  setdefault "dpi" (VInt 300) (example_options [])
  = (Ok (get (example_options []) "dpi"), example_options []).
Proof.
  apply setdefault_known_key.
  - apply example_options_wf. reflexivity.
  - apply mem_In. reflexivity.
Defined.

(** ** The reset, twice *)

Lemma dict_set_noop (k : string) (v : PyVal) (d : dict) :
  dict_get k d = Some v -> dict_set k v d = d.
Proof.
  induction d as [|[k' v'] d IH]; simpl; [discriminate|].
  destruct (String.eqb_spec k k') as [->|N].
  - now intros [= ->].
  - intros H. now rewrite IH.
Qed.

(** Two dictionaries with the same keys in the same order and the same
    value under each key are the same dictionary. *)
Lemma dict_ext (a : dict) :
  forall b, keys a = keys b -> NoDup (keys a) ->
  (forall k, In k (keys a) -> dict_get k a = dict_get k b) -> a = b.
Proof.
  induction a as [|[k v] a IH]; intros [|[k' v'] b] K ND H;
    try discriminate; [reflexivity|].
  simpl in K. injection K as <- K.
  inversion ND as [|? ? NI ND']; subst.
  pose proof (H k (or_introl eq_refl)) as Hk. simpl in Hk.
  rewrite String.eqb_refl in Hk. injection Hk as <-.
  f_equal. apply IH; [assumption..|].
  intros k0 I. specialize (H k0 (or_intror I)). simpl in H.
  destruct (String.eqb_spec k0 k) as [E|_]; [|exact H].
  exfalso. apply NI. now rewrite <- E.
Qed.

(** A second pass of "Handle interactivity" over the defaults writes what
    is there already. *)
Lemma expand_again (ob oi : PyVal) (d : dict) :
  expand (if truthy oi then ob else VStr "agg") oi (expand ob oi d)
  = expand ob oi d.
Proof.
  set (D := expand ob oi d).
  pose proof (dict_get_expand_show ob oi d) as Hs.
  pose proof (dict_get_expand_close ob oi d) as Hc.
  pose proof (dict_get_expand_backend ob oi d) as Hb.
  fold D in Hs, Hc, Hb. unfold expand at 1.
  destruct (truthy oi).
  - rewrite (dict_set_noop "show" _ D Hs), (dict_set_noop "close" _ D Hc).
    now apply dict_set_noop.
  - rewrite (dict_set_noop "show" _ D Hs). now apply dict_set_noop.
Qed.

(** A reset that Matplotlib accepts returns, with the live mapping and the
    defaults both equal to the defaults as "Handle interactivity" left
    them. *)
Lemma set_reset_result w st key value kwargs oi ob os :
  wf st -> In key ["default"; "defaults"] ->
  dict_get "interactive" (orig_options st) = Some oi ->
  dict_get "backend" (orig_options st) = Some ob ->
  dict_get "style" (orig_options st) = Some os ->
  mpl_accepts w "backend" (if truthy oi then ob else VStr "agg") = true ->
  mpl_accepts w "style" os = true ->
  exists st',
    set w (Some key) value kwargs st = (Ok tt, st') /\
    options st' = expand ob oi (orig_options st) /\
    orig_options st' = expand ob oi (orig_options st).
Proof.
  intros W Hkey Hoi Hob Hos Ab As. pose proof W as [W1 W2].
  set (D := expand ob oi (orig_options st)).
  assert (KD : keys D = option_names).
  { unfold D. rewrite keys_expand; rewrite W2; try reflexivity;
      apply mem_In; reflexivity. }
  assert (ND : NoDup (keys D)) by (rewrite KD; apply option_names_NoDup).
  destruct (resolved_items_total w (Some key) value kwargs st oi ob Hoi Hob)
    as [st0 R].
  pose proof (resolved_items_orig _ _ _ _ _ _ _ _ _ Hoi Hob R) as Ho.
  unfold requested in R, Ho. apply mem_In in Hkey. rewrite Hkey in R, Ho.
  assert (E : resolved_dict (orig_options st) OrigOptions oi ob = D).
  { unfold resolved_dict. cbv zeta. rewrite Hoi.
    now destruct (in_None_default oi). }
  rewrite E in R. fold D in Ho.
  destruct (set_returns w (Some key) value kwargs st D st0 W R) as [st' S].
  { intros k v I. split.
    - rewrite <- KD. now apply (in_map fst) in I.
    - exists v. rewrite Ho. split; [now apply stored_self|].
      intros Mk. apply mem_In in Mk.
      pose proof (In_dict_get _ _ _ ND I) as G.
      destruct Mk as [<-|[<-|Mk]].
      + unfold D in G. rewrite dict_get_expand_backend in G.
        injection G as <-. exact Ab.
      + unfold D in G. rewrite dict_get_expand_other in G by discriminate.
        rewrite Hos in G. injection G as <-. exact As.
      + now apply mpl_accepts_rc. }
  exists st'. split; [exact S|].
  destruct (set_Ok_inv _ _ _ _ _ _ _ _ R S) as (Sin & _ & So).
  split; [|congruence].
  pose proof (set_wf w (Some key) value kwargs st W) as W'.
  rewrite S in W'. destruct W' as [W1' _]. simpl in W1'.
  apply dict_ext.
  - now rewrite W1', KD.
  - rewrite W1'. apply option_names_NoDup.
  - intros k I. rewrite W1', <- KD in I.
    destruct (In_keys_get _ _ I) as [v G]. rewrite G.
    destruct (Sin ND k v (dict_get_In _ _ _ G)) as [x [Sx Gx]].
    rewrite Ho, stored_self in Sx by (try assumption; now apply dict_get_In).
    congruence.
Qed.

(** X23. The reset is idempotent.  When Matplotlib accepts the default
    style and the backend the default of [interactive] selects, a first
    [set('defaults')] returns with the live mapping equal to the defaults,
    key for key and in the same order, and a second one returns without
    changing the live mapping or the defaults. *)
Theorem set_reset_idempotent (w : World) (st : Options) (key : string)
    (oi ob os : PyVal) :
  wf st -> In key ["default"; "defaults"] ->
  dict_get "interactive" (orig_options st) = Some oi ->
  dict_get "backend" (orig_options st) = Some ob ->
  dict_get "style" (orig_options st) = Some os ->
  mpl_accepts w "backend" (if truthy oi then ob else VStr "agg") = true ->
  mpl_accepts w "style" os = true ->
  exists st1 st2,
    set w (Some key) VNone [] st = (Ok tt, st1) /\
    set w (Some key) VNone [] st1 = (Ok tt, st2) /\
    options st1 = orig_options st1 /\
    options st2 = options st1 /\ orig_options st2 = orig_options st1.
Proof.
  intros W Hkey Hoi Hob Hos Ab As.
  destruct (set_reset_result w st key VNone [] oi ob os W Hkey Hoi Hob Hos Ab As)
    as (st1 & S1 & O1 & D1).
  assert (W1 : wf st1).
  { pose proof (set_wf w (Some key) VNone [] st W) as X. now rewrite S1 in X. }
  set (ob1 := if truthy oi then ob else VStr "agg") in *.
  assert (Ab1 : mpl_accepts w "backend" (if truthy oi then ob1 else VStr "agg")
                = true).
  { unfold ob1. now destruct (truthy oi). }
  destruct (set_reset_result w st1 key VNone [] oi ob1 os W1 Hkey)
    as (st2 & S2 & O2 & D2); try assumption.
  - rewrite D1, dict_get_expand_other by discriminate. exact Hoi.
  - rewrite D1. apply dict_get_expand_backend.
  - rewrite D1, dict_get_expand_other by discriminate. exact Hos.
  - exists st1, st2. split; [exact S1|]. split; [exact S2|].
    split; [congruence|].
    rewrite D1 in O2, D2. unfold ob1 in O2, D2.
    rewrite expand_again in O2, D2. split; congruence.
Qed.

Lemma set_reset_idempotent_witness :
  exists st1 st2,
    set (example_world []) (Some "defaults") VNone [] (example_options [])
      = (Ok tt, st1) /\
    set (example_world []) (Some "defaults") VNone [] st1 = (Ok tt, st2) /\
    options st1 = orig_options st1 /\
    options st2 = options st1 /\ orig_options st2 = orig_options st1.
Proof.
  apply (set_reset_idempotent (example_world []) (example_options [])
           "defaults" (VBool true) (VStr "TkAgg") (VStr "covasim")).
  - apply example_options_wf. reflexivity.
  - simpl. tauto.
  - reflexivity.
  - reflexivity.
  - reflexivity.
  - reflexivity.
  - reflexivity.
Defined.
